(** * weewx-wcloud: the WeatherCloud uploader (bin/user/wcloud.py)

    A shallow embedding of the record-derivation and encoding code of the
    extension, and the properties its specification states about it.

    Conventions of the embedding.
    - A Python numeric value (int or float) is an exact rational [Q];
      [None] is the [None] of [option].  Floating-point rounding of the
      products is not modelled: the arithmetic is exact.
    - A Python dict whose iteration order is irrelevant (a weewx record) is a
      [gmap string (option Q)]; a dict whose iteration order reaches the
      output (the query values, the data map) is an association list in
      insertion order.
    - A Python exception is the [Raise] of the [result] type. *)

From Stdlib Require Import QArith Qround ZArith String Ascii List Lia Lqa DecimalString.
From stdpp Require Import gmap strings list.

Local Open Scope string_scope.

(** ** Values, exceptions *)

(** A nullable numeric field value is an [option Q]; a weewx record, from
    field names to nullable numbers, is a [gmap string (option Q)]. *)

Inductive exn : Type :=
| KeyError (k : string)
| IndexError
| TypeError.

Inductive result (A : Type) : Type :=
| Ok (a : A)
| Raise (e : exn).
Arguments Ok {A} a.
Arguments Raise {A} e.

#[global] Instance result_ret : MRet result := fun A a => Ok a.

#[global] Instance result_bind : MBind result := fun A B k m =>
  match m with
  | Ok a => k a
  | Raise e => Raise e
  end.

(** [d[k]] on a record: [KeyError] when the key is absent. *)
Definition getitem (d : gmap string (option Q)) (k : string) : result (option Q) :=
  match d !! k with
  | Some v => Ok v
  | None => Raise (KeyError k)
  end.

(** [d.get(k)]: [None] when the key is absent. *)
Definition dict_get_or_none (d : gmap string (option Q)) (k : string) : option Q :=
  match d !! k with
  | Some v => v
  | None => None
  end.

(** [k in d]. *)
Definition contains (d : gmap string (option Q)) (k : string) : bool :=
  match d !! k with
  | Some _ => true
  | None => false
  end.

(** ** Battery status *)

(** [_invert]: weewx uses a status of 1 to indicate failure, wcloud uses 0. *)
Definition _invert (x : option Q) : option Q :=
  match x with
  | None => None
  | Some q => if Qeq_bool q 0 then Some 1%Q else Some 0%Q
  end.

(** ** Unit systems and wind speed conversion *)

(** The unit-system tags of weewx: [weewx.US = 1], [weewx.METRIC = 16],
    [weewx.METRICWX = 17]. *)
Definition US : Q := 1.
Definition METRIC : Q := 16.
Definition METRICWX : Q := 17.

Inductive speed_unit : Type :=
| mile_per_hour
| km_per_hour
| meter_per_second.

(** [weewx.units.getStandardUnitType(us, 'windSpeed')]: the standard unit of
    wind speed in each of the three unit systems; any other tag is not a key
    of the table of standard converters. *)
Definition getStandardUnitType_windSpeed (us : Q) : result speed_unit :=
  if Qeq_bool us US then Ok mile_per_hour
  else if Qeq_bool us METRIC then Ok km_per_hour
  else if Qeq_bool us METRICWX then Ok meter_per_second
  else Raise (KeyError "usUnits").

Section UnitConversion.

(** The registered conversion table of weewx, from a unit of speed to
    metres per second.  It lives in weewx.units; only its shape matters
    here. *)
Variable to_meter_per_second : speed_unit -> Q -> Q.

(** [weewx.units.convert((v, from_unit, 'group_speed'), 'meter_per_second')[0]]:
    the same value when the units agree, otherwise the table's function
    applied to a scalar that is not [None]. *)
Definition convert_speed (v : option Q) (from_unit : speed_unit) : option Q :=
  match from_unit with
  | meter_per_second => v
  | _ => match v with
         | Some q => Some (to_meter_per_second from_unit q)
         | None => None
         end
  end.

(** [_convert_windspeed(v, from_unit_system)]. *)
Definition _convert_windspeed (v : option Q) (from_unit_system : option Q)
  : result (option Q) :=
  match from_unit_system with
  | None => Ok None
  | Some us =>
      if negb (Qeq_bool us METRICWX) then
        from_unit ← getStandardUnitType_windSpeed us;
        Ok (convert_speed v from_unit)
      else Ok v
  end.

End UnitConversion.

(** ** The archive table and the three windowed queries *)

(** A row of the archive table, restricted to the columns the queries read.
    [dateTime] is the primary key and is never NULL. *)
Record row : Type := mkRow {
  row_dateTime : Q;
  row_windSpeed : option Q;
  row_windGust : option Q;
  row_windDir : option Q
}.

(** The database manager is seen through the rows of its archive table, a
    [list row]. *)

(** [WHERE dateTime>? AND dateTime<=?] with the parameters [(sts, ts)]. *)
Definition in_window (sts ts : Q) (r : row) : bool :=
  negb (Qle_bool (row_dateTime r) sts) && Qle_bool (row_dateTime r) ts.

Definition window_rows (db : list row) (sts ts : Q) : list row :=
  List.filter (in_window sts ts) db.

(** The values of a column expression that are not NULL: SQL aggregates
    skip NULL. *)
Fixpoint non_null (vs : list (option Q)) : list Q :=
  match vs with
  | [] => []
  | Some q :: vs' => q :: non_null vs'
  | None :: vs' => non_null vs'
  end.

Definition Qsum (qs : list Q) : Q := fold_right Qplus 0%Q qs.

(** SQL [AVG]: the mean of the values that are not NULL, NULL when there is
    none. *)
Definition sql_avg (vs : list (option Q)) : option Q :=
  match non_null vs with
  | [] => None
  | q :: qs => Some (Qsum (q :: qs) / inject_Z (Z.of_nat (length (q :: qs))))%Q
  end.

Definition Qmax (a b : Q) : Q := if Qle_bool a b then b else a.

(** SQL [MAX]: the greatest of the values that are not NULL, NULL when there
    is none. *)
Definition sql_max (vs : list (option Q)) : option Q :=
  match non_null vs with
  | [] => None
  | q :: qs => Some (fold_right Qmax q qs)
  end.

(** [CASE WHEN a >= b THEN a ELSE b END]: a comparison with NULL is not
    true, so the ELSE branch is taken whenever either side is NULL. *)
Definition sql_case_ge (a b : option Q) : option Q :=
  match a, b with
  | Some x, Some y => if Qle_bool y x then a else b
  | _, _ => b
  end.

(** [dbm.getSql] on an aggregate query without GROUP BY: the statement
    yields exactly one row, and its only column is the aggregate. *)
Definition getSql_aggregate (agg : list row -> option Q) (db : list row)
    (sts ts : Q) : option (list (option Q)) :=
  Some [agg (window_rows db sts ts)].

(** [val[0] if val is not None else None]. *)
Definition first_column (val : option (list (option Q))) : result (option Q) :=
  match val with
  | Some (c :: _) => Ok c
  | Some [] => Raise IndexError
  | None => Ok None
  end.

Definition avg_windSpeed (rows : list row) : option Q :=
  sql_avg (List.map row_windSpeed rows).

Definition max_speed_or_gust (rows : list row) : option Q :=
  sql_max (List.map (fun r => sql_case_ge (row_windSpeed r) (row_windGust r)) rows).

Definition avg_windDir (rows : list row) : option Q :=
  sql_avg (List.map row_windDir rows).

(** An operand of Python arithmetic: [None] is a [TypeError]. *)
Definition number (v : option Q) : result Q :=
  match v with
  | Some q => Ok q
  | None => Raise TypeError
  end.

Definition _get_windavg (db : list row) (ts : option Q) (interval : Q)
  : result (option Q) :=
  t ← number ts;
  let sts := (t - interval)%Q in
  let val := getSql_aggregate avg_windSpeed db sts t in
  first_column val.

Definition _get_windhi (db : list row) (ts : option Q) (interval : Q)
  : result (option Q) :=
  t ← number ts;
  let sts := (t - interval)%Q in
  let val := getSql_aggregate max_speed_or_gust db sts t in
  first_column val.

Definition _get_winddiravg (db : list row) (ts : option Q) (interval : Q)
  : result (option Q) :=
  t ← number ts;
  let sts := (t - interval)%Q in
  let val := getSql_aggregate avg_windDir db sts t in
  first_column val.

(** The default [interval=600] of the three functions. *)
Definition default_interval : Q := 600.

(** ** [WeatherCloudThread.get_record] *)

(** [if rec.get(k) is not None and rec[k] > 359: rec[k] -= 360]. *)
Definition wrap_direction (k : string) (rec : gmap string (option Q))
  : gmap string (option Q) :=
  match dict_get_or_none rec k with
  | Some d => if negb (Qle_bool d 359) then <[k := Some (d - 360)%Q]> rec else rec
  | None => rec
  end.

(** [if src in record: rec[dst] = _invert(record[src])]. *)
Definition set_battery (src dst : string) (record rec : gmap string (option Q))
  : gmap string (option Q) :=
  match record !! src with
  | Some x => <[dst := _invert x]> rec
  | None => rec
  end.

Section GetRecord.

Variable to_meter_per_second : speed_unit -> Q -> Q.

(** [RESTThread.get_record] of weewx.restx, which copies the record and
    adds the rain totals of the database, and [weewx.units.to_METRICWX]:
    both belong to the host. *)
Variable restx_get_record :
  gmap string (option Q) -> list row -> result (gmap string (option Q)).
Variable to_METRICWX : gmap string (option Q) -> result (gmap string (option Q)).

(** The numeric formulas of weewx.wxformulas on operands that are not
    [None]; they may still give [None] (the dew point of a humidity of
    zero). *)
Variable heatindex_formula : Q -> Q -> option Q.
Variable dewpoint_formula : Q -> Q -> option Q.

(** [weewx.wxformulas.heatindexC(T, R)]: [None] if either operand is. *)
Definition heatindexC (t r : option Q) : option Q :=
  match t, r with
  | Some t', Some r' => heatindex_formula t' r'
  | _, _ => None
  end.

(** [weewx.wxformulas.dewpointC(T, R)]: [None] if either operand is. *)
Definition dewpointC (t r : option Q) : option Q :=
  match t, r with
  | Some t', Some r' => dewpoint_formula t' r'
  | _, _ => None
  end.

(** [if 'inTemp' in rec and 'inHumidity' in rec: ...]. *)
Definition set_indoor (rec : gmap string (option Q)) : gmap string (option Q) :=
  if contains rec "inTemp" && contains rec "inHumidity" then
    let rec1 :=
      <["inheatindex" :=
          heatindexC (dict_get_or_none rec "inTemp") (dict_get_or_none rec "inHumidity")]> rec in
    <["indewpoint" :=
        dewpointC (dict_get_or_none rec1 "inTemp") (dict_get_or_none rec1 "inHumidity")]> rec1
  else rec.

(** The five battery channels, in the order of the source. *)
Definition set_batteries (record rec : gmap string (option Q))
  : gmap string (option Q) :=
  let rec := set_battery "txBatteryStatus" "bat01" record rec in
  let rec := set_battery "windBatteryStatus" "bat02" record rec in
  let rec := set_battery "rainBatteryStatus" "bat03" record rec in
  let rec := set_battery "outTempBatteryStatus" "bat04" record rec in
  set_battery "inTempBatteryStatus" "bat05" record rec.

(** The body of [get_record] after the call of the base class and the
    conversion to METRICWX: [rec] is the converted copy, [record] the raw
    archive record. *)
Definition derive (record rec : gmap string (option Q)) (db : list row)
  : result (gmap string (option Q)) :=
  ts ← getitem record "dateTime";
  windavg ← _get_windavg db ts default_interval;
  let rec := <["windavg" := windavg]> rec in
  ts ← getitem record "dateTime";
  windhi ← _get_windhi db ts default_interval;
  let rec := <["windhi" := windhi]> rec in
  ts ← getitem record "dateTime";
  winddiravg ← _get_winddiravg db ts default_interval;
  let rec := <["winddiravg" := winddiravg]> rec in
  let rec := wrap_direction "windDir" rec in
  let rec := wrap_direction "winddiravg" rec in
  us ← getitem record "usUnits";
  windavg ← _convert_windspeed to_meter_per_second (dict_get_or_none rec "windavg") us;
  let rec := <["windavg" := windavg]> rec in
  us ← getitem record "usUnits";
  windhi ← _convert_windspeed to_meter_per_second (dict_get_or_none rec "windhi") us;
  let rec := <["windhi" := windhi]> rec in
  let rec := set_indoor rec in
  Ok (set_batteries record rec).

Definition get_record (record : gmap string (option Q)) (db : list row)
  : result (gmap string (option Q)) :=
  rec ← restx_get_record record db;
  rec ← to_METRICWX rec;
  derive record rec db.

End GetRecord.

(** ** Rendering numbers and times *)

(** The decimal digits of a natural number, [str(n)]. *)
Definition decimal (z : Z) : string :=
  NilZero.string_of_uint (N.to_uint (Z.to_N z)).

(** Two digits with a leading zero, as [%H], [%M], [%m] and [%d] print. *)
Definition two_digits (z : Z) : string :=
  if (z <? 10)%Z then "0" +:+ decimal z else decimal z.

(** The nearest integer of a rational that is not negative, a tie going to
    the even neighbour. *)
Definition round_half_even (q : Q) : Z :=
  let f := Qfloor q in
  match ((q - inject_Z f) ?= (1 # 2))%Q with
  | Lt => f
  | Eq => if Z.even f then f else (f + 1)%Z
  | Gt => (f + 1)%Z
  end.

(** ['%.0f' % q]: the sign, then the rounded magnitude with no decimal
    point. *)
Definition format_0f (q : Q) : string :=
  if negb (Qle_bool 0 q) then "-" +:+ decimal (round_half_even (- q))
  else decimal (round_half_even q).

(** The formats of the data map; every entry of the source uses ['%.0f']. *)
Inductive num_format : Type :=
| pct_0f.

(** [fmt % v]. *)
Definition percent (fmt : num_format) (v : Q) : string :=
  match fmt with
  | pct_0f => format_0f v
  end.

(** The fields of [time.struct_time] that the two [strftime] calls read. *)
Record struct_time : Type := mkTime {
  tm_year : Z;
  tm_mon : Z;
  tm_mday : Z;
  tm_hour : Z;
  tm_min : Z
}.

(** [time.gmtime(secs)]: the proleptic Gregorian date and the time of day in
    UTC of a count of seconds since 1970-01-01. *)
Definition gmtime (secs : Z) : struct_time :=
  let days := (secs / 86400)%Z in
  let rem := (secs mod 86400)%Z in
  let z := (days + 719468)%Z in
  let era := (z / 146097)%Z in
  let doe := (z - era * 146097)%Z in
  let yoe := ((doe - doe / 1460 + doe / 36524 - doe / 146096) / 365)%Z in
  let doy := (doe - (365 * yoe + yoe / 4 - yoe / 100))%Z in
  let mp := ((5 * doy + 2) / 153)%Z in
  let d := (doy - (153 * mp + 2) / 5 + 1)%Z in
  let m := (if (mp <? 10)%Z then mp + 3 else mp - 9)%Z in
  let y := (yoe + era * 400 + (if (m <=? 2)%Z then 1 else 0))%Z in
  {| tm_year := y; tm_mon := m; tm_mday := d;
     tm_hour := (rem / 3600)%Z; tm_min := ((rem mod 3600) / 60)%Z |}.

(** [time.strftime("%H%M", tt)] and [time.strftime("%Y%m%d", tt)]. *)
Definition strftime_HM (tt : struct_time) : string :=
  two_digits (tm_hour tt) +:+ two_digits (tm_min tt).

Definition strftime_Ymd (tt : struct_time) : string :=
  decimal (tm_year tt) +:+ two_digits (tm_mon tt) +:+ two_digits (tm_mday tt).

(** ** The query string *)

(** The dict [values] of [format_url], in insertion order. *)
Fixpoint dict_set (k v : string) (d : list (string * string)) : list (string * string) :=
  match d with
  | [] => [(k, v)]
  | (k', v') :: d' =>
      if String.eqb k' k then (k', v) :: d' else (k', v') :: dict_set k v d'
  end.

Fixpoint dict_lookup (k : string) (d : list (string * string)) : option string :=
  match d with
  | [] => None
  | (k', v') :: d' => if String.eqb k' k then Some v' else dict_lookup k d'
  end.

Definition in_range (lo hi : N) (c : ascii) : bool :=
  (lo <=? N_of_ascii c)%N && (N_of_ascii c <=? hi)%N.

(** The characters [urllib] never quotes: letters, digits and [_.-~]. *)
Definition always_safe (c : ascii) : bool :=
  in_range 65 90 c || in_range 97 122 c || in_range 48 57 c
  || Ascii.eqb c "_" || Ascii.eqb c "." || Ascii.eqb c "-" || Ascii.eqb c "~".

Definition hex_digit (n : N) : ascii :=
  if (n <? 10)%N then ascii_of_N (48 + n) else ascii_of_N (55 + n).

(** [quote_plus] on one byte. *)
Definition quote_char (c : ascii) : string :=
  if always_safe c then String c EmptyString
  else if Ascii.eqb c " " then "+"
  else String "%" (String (hex_digit (N_of_ascii c / 16))
                     (String (hex_digit (N_of_ascii c mod 16)) EmptyString)).

(** [urllib.parse.quote_plus(s)] with the default [safe='']. *)
Fixpoint quote_plus (s : string) : string :=
  match s with
  | EmptyString => EmptyString
  | String c s' => quote_char c +:+ quote_plus s'
  end.

(** ['&'.join(l)]. *)
Fixpoint join_amp (l : list string) : string :=
  match l with
  | [] => EmptyString
  | [x] => x
  | x :: l' => x +:+ "&" +:+ join_amp l'
  end.

Definition encode_pair (kv : string * string) : string :=
  quote_plus (fst kv) +:+ "=" +:+ quote_plus (snd kv).

(** [urlencode(values)]. *)
Definition urlencode (values : list (string * string)) : string :=
  join_amp (List.map encode_pair values).

(** [re.sub(r"key=[^\&]*", "key=XXX", s)], scanning left to right.
    [inside] tells that the scan is within a match, whose [[^&]*] consumes
    every character up to the next ampersand.  Outside a match, a position
    where [key=] starts opens one: the replacement is written and the
    three characters left of the literal, none of them an ampersand, are
    consumed like the rest of the match. *)
Fixpoint re_sub_key (inside : bool) (s : string) : string :=
  match s with
  | EmptyString => EmptyString
  | String c s' =>
      if inside && negb (Ascii.eqb c "&") then re_sub_key true s'
      else if String.prefix "key=" s then "key=XXX" +:+ re_sub_key true s'
      else String c (re_sub_key false s')
  end.

(** ** [WeatherCloudThread] *)

(** A line of [_DATA_MAP]: the weewx name, the format and the multiplier of
    a wcloud name. *)
Record map_entry : Type := mkEntry {
  weewx_name : string;
  entry_format : num_format;
  multiplier : Q
}.

(** [_DATA_MAP], which supports the default database schema. *)
Definition _DATA_MAP : list (string * map_entry) :=
  [ ("temp",        mkEntry "outTemp"            pct_0f 10);
    ("hum",         mkEntry "outHumidity"        pct_0f 1);
    ("wdir",        mkEntry "windDir"            pct_0f 1);
    ("wspd",        mkEntry "windSpeed"          pct_0f 10);
    ("bar",         mkEntry "barometer"          pct_0f 10);
    ("rain",        mkEntry "dayRain"            pct_0f 10);
    ("rainrate",    mkEntry "rainRate"           pct_0f 10);
    ("tempin",      mkEntry "inTemp"             pct_0f 10);
    ("humin",       mkEntry "inHumidity"         pct_0f 1);
    ("uvi",         mkEntry "UV"                 pct_0f 10);
    ("solarrad",    mkEntry "radiation"          pct_0f 10);
    ("et",          mkEntry "ET"                 pct_0f 10);
    ("chill",       mkEntry "windchill"          pct_0f 10);
    ("heat",        mkEntry "heatindex"          pct_0f 10);
    ("dew",         mkEntry "dewpoint"           pct_0f 10);
    ("battery",     mkEntry "consBatteryVoltage" pct_0f 100);
    ("temp01",      mkEntry "extraTemp1"         pct_0f 10);
    ("temp02",      mkEntry "extraTemp2"         pct_0f 10);
    ("temp03",      mkEntry "extraTemp3"         pct_0f 10);
    ("temp04",      mkEntry "leafTemp1"          pct_0f 10);
    ("temp05",      mkEntry "leafTemp2"          pct_0f 10);
    ("temp06",      mkEntry "soilTemp1"          pct_0f 10);
    ("temp07",      mkEntry "soilTemp2"          pct_0f 10);
    ("temp08",      mkEntry "soilTemp3"          pct_0f 10);
    ("temp09",      mkEntry "soilTemp4"          pct_0f 10);
    ("temp10",      mkEntry "heatingTemp4"       pct_0f 10);
    ("leafwet01",   mkEntry "leafWet1"           pct_0f 1);
    ("leafwet02",   mkEntry "leafWet2"           pct_0f 1);
    ("hum01",       mkEntry "extraHumid1"        pct_0f 1);
    ("hum02",       mkEntry "extraHumid2"        pct_0f 1);
    ("soilmoist01", mkEntry "soilMoist1"         pct_0f 1);
    ("soilmoist02", mkEntry "soilMoist2"         pct_0f 1);
    ("soilmoist03", mkEntry "soilMoist3"         pct_0f 1);
    ("soilmoist04", mkEntry "soilMoist4"         pct_0f 1);
    ("wspdhi",      mkEntry "windhi"             pct_0f 10);
    ("wspdavg",     mkEntry "windavg"            pct_0f 10);
    ("wdiravg",     mkEntry "winddiravg"         pct_0f 1);
    ("heatin",      mkEntry "inheatindex"        pct_0f 10);
    ("dewin",       mkEntry "indewpoint"         pct_0f 10);
    ("battery01",   mkEntry "bat01"              pct_0f 1);
    ("battery02",   mkEntry "bat02"              pct_0f 1);
    ("battery03",   mkEntry "bat03"              pct_0f 1);
    ("battery04",   mkEntry "bat04"              pct_0f 1);
    ("battery05",   mkEntry "bat05"              pct_0f 1) ].

Definition _SERVER_URL : string := "http://api.weathercloud.net/v01/set".

(** The attributes of the thread that [format_url] reads. *)
Record WeatherCloudThread : Type := mkThread {
  thread_id : string;
  thread_key : string;
  server_url : string;
  skip_upload : bool
}.

(** [logmsg(level, msg)]: one syslog entry. *)
Inductive log_level : Type :=
| LOG_DEBUG
| LOG_INFO
| LOG_ERR.

Definition logmsg (level : log_level) (msg : string) : log_level * string :=
  (level, "restx: WeatherCloud: " +:+ msg).

Definition logdbg (msg : string) : log_level * string := logmsg LOG_DEBUG msg.
Definition loginf (msg : string) : log_level * string := logmsg LOG_INFO msg.

(** One turn of the loop of [format_url] over the data map. *)
Definition add_field (rec : gmap string (option Q)) (values : list (string * string))
    (item : string * map_entry) : list (string * string) :=
  let key := fst item in
  let rkey := weewx_name (snd item) in
  match rec !! rkey with
  | Some (Some x) =>
      let v := (x * multiplier (snd item))%Q in
      dict_set key (percent (entry_format (snd item)) v) values
  | _ => values
  end.

Section FormatUrl.

(** The state of the host that [format_url] reads: [weewx.__version__],
    [weewx.debug], and the clock that [time.gmtime(None)] falls back
    to. *)
Variable weewx_version : string.
Variable weewx_debug : Z.
Variable now : Z.

(** The dict literal that opens [format_url]. *)
Definition header_values (self : WeatherCloudThread) (time_tt : struct_time)
  : list (string * string) :=
  [ ("ver", weewx_version);
    ("type", decimal 251);
    ("wid", thread_id self);
    ("key", thread_key self);
    ("time", strftime_HM time_tt);
    ("date", strftime_Ymd time_tt) ].

(** The dict [values] when the loop over [_DATA_MAP] has finished. *)
Definition format_values (self : WeatherCloudThread) (rec : gmap string (option Q))
  : result (list (string * string)) :=
  ts ← getitem rec "dateTime";
  let time_tt := gmtime (match ts with Some t => Qfloor t | None => now end) in
  Ok (fold_left (add_field rec) _DATA_MAP (header_values self time_tt)).

(** [format_url(self, record)]: the URL, and what it writes to the log. *)
Definition format_url (self : WeatherCloudThread) (rec : gmap string (option Q))
  : result (string * list (log_level * string)) :=
  values ← format_values self rec;
  let url := server_url self +:+ "?" +:+ urlencode values in
  let log :=
    if (2 <=? weewx_debug)%Z then [logdbg ("url: " +:+ re_sub_key false url)] else [] in
  Ok (url, log).

End FormatUrl.

(** ** The service [WeatherCloud] *)

Definition VERSION : string := "0.12".

(** The events of the host that matter here. *)
Inductive event : Type :=
| NEW_ARCHIVE_RECORD (rec : gmap string (option Q))
| OTHER_EVENT.

(** The service object and what it has done to the host: the attributes
    [archive_queue] and [archive_thread] exist only once the constructor
    has assigned them; [started] tells that [start()] was called on the
    thread; [bound] tells that [new_archive_record] is bound to
    [weewx.NEW_ARCHIVE_RECORD]; [syslog] is what was logged. *)
Record WeatherCloud : Type := mkService {
  archive_queue : option (list (gmap string (option Q)));
  archive_thread : option WeatherCloudThread;
  started : bool;
  bound : bool;
  syslog : list (log_level * string)
}.

(** The object before [__init__] runs. *)
Definition blank_service : WeatherCloud :=
  mkService None None false false [].

(** [to_bool] of weeutil on an option of the configuration. *)
Definition to_bool (s : string) : bool :=
  String.eqb s "true" || String.eqb s "True" || String.eqb s "yes"
  || String.eqb s "1".

(** [WeatherCloudThread(queue, **site_dict)]: [id] and [key] have no
    default. *)
Definition new_thread (site_dict : gmap string string) : result WeatherCloudThread :=
  match site_dict !! "id", site_dict !! "key" with
  | Some i, Some k =>
      Ok (mkThread i k (default _SERVER_URL (site_dict !! "server_url"))
            (from_option to_bool false (site_dict !! "skip_upload")))
  | _, _ => Raise TypeError
  end.

Section Service.

(** The configuration of the host, and the two functions of the host that
    read it: [weewx.restx.get_site_dict(config_dict, 'WeatherCloud', 'id',
    'key')] and [weewx.manager.get_manager_dict]. *)
Variable config_dict : Type.
Variable manager_dict : Type.
Variable get_site_dict : config_dict -> option (gmap string string).
Variable get_manager_dict : config_dict -> result manager_dict.

(** [WeatherCloud.__init__(self, engine, config_dict)]. *)
Definition WeatherCloud_init (cfg : config_dict) (self : WeatherCloud)
  : result WeatherCloud :=
  let log1 := (syslog self ++ [loginf ("service version is " +:+ VERSION)])%list in
  match get_site_dict cfg with
  | None =>
      Ok (mkService (archive_queue self) (archive_thread self)
            (started self) (bound self) log1)
  | Some site_dict =>
      _ ← get_manager_dict cfg;
      thread ← new_thread site_dict;
      Ok (mkService (Some []) (Some thread) true true
            (log1 ++ [loginf ("Data will be uploaded for id=" +:+ thread_id thread)])%list)
  end.

End Service.

(** [new_archive_record(self, event)]: [self.archive_queue.put(event.record)]. *)
Definition new_archive_record (self : WeatherCloud) (rec : gmap string (option Q))
  : result WeatherCloud :=
  match archive_queue self with
  | Some q =>
      Ok (mkService (Some (q ++ [rec])%list) (archive_thread self)
            (started self) (bound self) (syslog self))
  | None => Raise (KeyError "archive_queue")
  end.

(** The host dispatching one event to the service: only a bound callback
    runs. *)
Definition dispatch (self : WeatherCloud) (e : event) : result WeatherCloud :=
  match e with
  | NEW_ARCHIVE_RECORD rec => if bound self then new_archive_record self rec else Ok self
  | OTHER_EVENT => Ok self
  end.

Fixpoint dispatch_all (self : WeatherCloud) (es : list event) : result WeatherCloud :=
  match es with
  | [] => Ok self
  | e :: es' => self' ← dispatch self e; dispatch_all self' es'
  end.

(** ** What the specification says of [max_speed_or_gust] *)

(** The greater of two speeds, either of which the hardware may not report:
    the one reported when the other is missing, following the words of the
    specification of the windowed maximum gust. *)
Definition reported_max (speed gust : option Q) : option Q :=
  match speed, gust with
  | Some x, Some y => if Qle_bool y x then Some x else Some y
  | Some x, None => Some x
  | None, _ => gust
  end.

(** The windowed maximum gust as the specification words it. *)
Definition windowed_max_gust (db : list row) (ts interval : Q) : option Q :=
  sql_max (List.map (fun r => reported_max (row_windSpeed r) (row_windGust r))
             (window_rows db (ts - interval)%Q ts)).

(** The values that are tags of a unit system. *)
Definition is_unit_system (us : Q) : Prop :=
  (us == US \/ us == METRIC \/ us == METRICWX)%Q.

(** The fields that [get_record] computes, and the battery channels with
    the raw status each is read from. *)
Definition battery_channels : list (string * string) :=
  [ ("txBatteryStatus", "bat01");
    ("windBatteryStatus", "bat02");
    ("rainBatteryStatus", "bat03");
    ("outTempBatteryStatus", "bat04");
    ("inTempBatteryStatus", "bat05") ].

Definition secondary_fields : list string :=
  ["windavg"; "windhi"; "winddiravg"; "inheatindex"; "indewpoint"]
  ++ List.map snd battery_channels.

(** What one turn of the loop writes under its own key. *)
Definition encoded (rec : gmap string (option Q)) (e : map_entry) : option string :=
  match rec !! weewx_name e with
  | Some (Some x) => Some (percent (entry_format e) (x * multiplier e)%Q)
  | _ => None
  end.

(** No ampersand in a string. *)
Fixpoint no_amp (s : string) : bool :=
  match s with
  | EmptyString => true
  | String c s' => negb (Ascii.eqb c "&") && no_amp s'
  end.

(** [_calc_thw(heatindex_C, windspeed_mps)], which the source keeps but no
    longer calls; the division is the true division of floats. *)
Definition _calc_thw (heatindex_C windspeed_mps : option Q) : option Q :=
  match heatindex_C, windspeed_mps with
  | Some h, Some w =>
      let windspeed_mph := ((225 # 100) * w)%Q in
      let heatindex_F := (32 + h * 9 / 5)%Q in
      let thw_F := (heatindex_F - ((1072 # 1000) * windspeed_mph))%Q in
      let thw_C := ((thw_F - 32) * 5 / 9)%Q in
      Some thw_C
  | _, _ => None
  end.

(** A string of decimal digits, and an integer literal: digits, at least
    one, after an optional minus sign. *)
Definition is_digit (c : ascii) : bool := in_range 48 57 c.

Fixpoint all_digits (s : string) : bool :=
  match s with
  | EmptyString => true
  | String c s' => is_digit c && all_digits s'
  end.

Definition is_integer_literal (s : string) : bool :=
  match s with
  | EmptyString => false
  | String c s' =>
      if Ascii.eqb c "-"
      then negb (String.eqb s' EmptyString) && all_digits s'
      else all_digits s
  end.

(** The key and the entry of the lines of the data map. *)
Definition wire_keys : list string := List.map fst _DATA_MAP.

(** The keys that [get_record] may assign after the conversion. *)
Definition assigned_fields : list string :=
  "windDir" :: secondary_fields.

(** The archive records among the events of the host, in order. *)
Fixpoint records_of (es : list event) : list (gmap string (option Q)) :=
  match es with
  | [] => []
  | NEW_ARCHIVE_RECORD rec :: es' => rec :: records_of es'
  | OTHER_EVENT :: es' => records_of es'
  end.

(** A string in which the character [x] does not occur. *)
Fixpoint lacks (x : ascii) (s : string) : bool :=
  match s with
  | EmptyString => true
  | String c s' => negb (Ascii.eqb c x) && lacks x s'
  end.

(** Whether [key=] starts somewhere in a string. *)
Fixpoint has_key (s : string) : bool :=
  match s with
  | EmptyString => false
  | String c s' => String.prefix "key=" s || has_key s'
  end.

(** * Properties *)

(** A run that returns, read off its evaluation. *)
Lemma run_returns {A : Type} (r : result A) (P : A -> Prop) :
  match r with
  | Ok a => P a
  | Raise _ => False
  end ->
  exists a, r = Ok a /\ P a.
Proof. destruct r as [a|e]; [eauto | tauto]. Qed.

(** ** Battery status *)

Lemma invert_Some_zero (x : Q) : (x == 0)%Q -> _invert (Some x) = Some 1%Q.
Proof.
  intros Hx. unfold _invert.
  apply Qeq_bool_iff in Hx. now rewrite Hx.
Qed.

Lemma invert_Some_nonzero (x : Q) : ~ (x == 0)%Q -> _invert (Some x) = Some 0%Q.
Proof.
  intros Hx. unfold _invert.
  destruct (Qeq_bool x 0) eqn:E; [|reflexivity].
  apply Qeq_bool_iff in E. contradiction.
Qed.

(** C6: the inversion maps 0 to 1, 1 to 0 and null to null, and applying it
    twice to a status [x] that is 0 or 1 gives [x] back; applying it twice
    to null gives null. *)
Theorem invert_involutive (x : Q) (Hx : (x == 0 \/ x == 1)%Q) :
  _invert (Some 0%Q) = Some 1%Q /\
  _invert (Some 1%Q) = Some 0%Q /\
  _invert None = None /\
  _invert (_invert None) = None /\
  exists y, _invert (_invert (Some x)) = Some y /\ (y == x)%Q.
Proof.
  repeat split; try reflexivity.
  destruct Hx as [H0 | H1].
  - rewrite (invert_Some_zero x H0). exists 0%Q. split; [reflexivity|].
    symmetry; exact H0.
  - rewrite (invert_Some_nonzero x).
    + exists 1%Q. split; [reflexivity|]. symmetry; exact H1.
    + intros H0. rewrite H1 in H0. discriminate H0.
Qed.

Lemma invert_involutive_witness :
  _invert (Some 0%Q) = Some 1%Q /\
  _invert (Some 1%Q) = Some 0%Q /\
  _invert None = None /\
  _invert (_invert None) = None /\
  exists y, _invert (_invert (Some 1%Q)) = Some y /\ (y == 1)%Q.
Proof.
  apply (invert_involutive 1%Q). right. reflexivity.
Defined.

(** C10: the inversion answers on every status that is not null: 1 when the
    status equals 0, and 0 for every other number, whether or not it is one
    of the two conventional codes. *)
Theorem invert_total (x : Q) :
  (exists y, _invert (Some x) = Some y) /\
  ((x == 0)%Q -> _invert (Some x) = Some 1%Q) /\
  (~ (x == 0)%Q -> _invert (Some x) = Some 0%Q).
Proof.
  split; [|split].
  - unfold _invert. destruct (Qeq_bool x 0); eauto.
  - apply invert_Some_zero.
  - apply invert_Some_nonzero.
Qed.

Lemma invert_total_witness :
  _invert (Some 2%Q) = Some 0%Q /\ _invert (Some (1 # 2)%Q) = Some 0%Q /\
  _invert (Some (0 # 5)%Q) = Some 1%Q.
Proof.
  split; [|split].
  - apply (proj2 (proj2 (invert_total 2%Q))). intros H; discriminate H.
  - apply (proj2 (proj2 (invert_total (1 # 2)%Q))). intros H; discriminate H.
  - apply (proj1 (proj2 (invert_total (0 # 5)%Q))). reflexivity.
Defined.

(** ** Wind speed conversion *)

Lemma getStandardUnitType_total (us : Q) :
  is_unit_system us -> exists u, getStandardUnitType_windSpeed us = Ok u.
Proof.
  unfold is_unit_system, getStandardUnitType_windSpeed.
  intros [H | [H | H]]; apply Qeq_bool_iff in H.
  - rewrite H. eauto.
  - destruct (Qeq_bool us US); [eauto|]. rewrite H. eauto.
  - destruct (Qeq_bool us US); [eauto|].
    destruct (Qeq_bool us METRIC); [eauto|]. rewrite H. eauto.
Qed.

(** C5: a null wind speed converts to null from every source unit system
    (and from a null unit system), and a wind speed that is already in
    METRICWX is returned unchanged. *)
Theorem convert_windspeed_null_and_canonical
    (to_mps : speed_unit -> Q -> Q) (s : option Q) (v : option Q) (us : Q)
    (Hs : s = None \/ exists u, s = Some u /\ is_unit_system u)
    (Hus : (us == METRICWX)%Q) :
  _convert_windspeed to_mps None s = Ok None /\
  _convert_windspeed to_mps v (Some us) = Ok v.
Proof.
  split.
  - destruct Hs as [-> | (u & -> & Hu)]; [reflexivity|].
    unfold _convert_windspeed.
    destruct (negb (Qeq_bool u METRICWX)); [|reflexivity].
    destruct (getStandardUnitType_total u Hu) as [unit ->].
    destruct unit; reflexivity.
  - unfold _convert_windspeed.
    apply Qeq_bool_iff in Hus. now rewrite Hus.
Qed.

Lemma convert_windspeed_null_and_canonical_witness :
  _convert_windspeed (fun _ q => q * (44704 # 100000))%Q None (Some US) = Ok None /\
  _convert_windspeed (fun _ q => q * (44704 # 100000))%Q (Some 3%Q) (Some METRICWX)
    = Ok (Some 3%Q).
Proof.
  apply (convert_windspeed_null_and_canonical _ (Some US) (Some 3%Q) METRICWX).
  - right. exists US. split; [reflexivity|]. left. reflexivity.
  - reflexivity.
Defined.

(** ** Windowed aggregates *)

(** C7: over a window [(ts - interval, ts]] that holds no row, the windowed
    average of the wind speed, the windowed maximum gust and the windowed
    average of the wind direction each return null: not zero, and no
    exception. *)
Theorem empty_window_is_null (db : list row) (ts interval : Q)
    (Hempty : window_rows db (ts - interval)%Q ts = []) :
  _get_windavg db (Some ts) interval = Ok None /\
  _get_windhi db (Some ts) interval = Ok None /\
  _get_winddiravg db (Some ts) interval = Ok None.
Proof.
  unfold _get_windavg, _get_windhi, _get_winddiravg, getSql_aggregate.
  cbn [number mbind result_bind]. rewrite Hempty.
  repeat split.
Qed.

Lemma empty_window_is_null_witness :
  let db := [mkRow 1000 (Some 4%Q) (Some 6%Q) (Some 90%Q);
             mkRow 2300 (Some 2%Q) (Some 3%Q) (Some 10%Q)] in
  window_rows db (2000 - 600)%Q 2000 = [] /\
  _get_windavg db (Some 2000%Q) 600 = Ok None /\
  _get_windhi db (Some 2000%Q) 600 = Ok None /\
  _get_winddiravg db (Some 2000%Q) 600 = Ok None.
Proof.
  intros db. split; [reflexivity|].
  apply (empty_window_is_null db 2000%Q 600%Q). reflexivity.
Defined.

(** Where every row of the window that reports a wind speed also reports a
    gust, the query is the windowed maximum gust of the specification. *)
Lemma sql_case_ge_reported (a b : option Q) :
  (a = None \/ b <> None) -> sql_case_ge a b = reported_max a b.
Proof.
  destruct a as [x|], b as [y|]; cbn; intros [H | H]; try congruence.
  all: destruct (Qle_bool y x); reflexivity.
Qed.

Lemma get_windhi_with_gusts (db : list row) (ts interval : Q) :
  Forall (fun r => row_windSpeed r = None \/ row_windGust r <> None)
         (window_rows db (ts - interval)%Q ts) ->
  _get_windhi db (Some ts) interval = Ok (windowed_max_gust db ts interval).
Proof.
  intros Hall. unfold _get_windhi, windowed_max_gust, getSql_aggregate.
  cbn [number mbind result_bind first_column]. f_equal.
  unfold max_speed_or_gust. f_equal.
  induction Hall as [|r rows Hr _ IH]; [reflexivity|].
  cbn [List.map]. rewrite IH. f_equal. now apply sql_case_ge_reported.
Qed.

(** C2: a row that reports a wind speed and no gust does not reach the
    maximum: on a window made of that one row the query answers null, where
    the windowed maximum gust of the specification is the speed reported. *)
Theorem get_windhi_drops_speed_without_gust :
  let db := [mkRow 1700000000 (Some 5%Q) None (Some 180%Q)] in
  _get_windhi db (Some 1700000000%Q) default_interval = Ok None /\
  windowed_max_gust db 1700000000 default_interval = Some 5%Q.
Proof.
  split; reflexivity.
Qed.

(** ** Wind direction *)

Lemma wrap_direction_small (k : string) (rec : gmap string (option Q)) (d : Q) :
  rec !! k = Some (Some d) -> (d <= 359)%Q -> wrap_direction k rec = rec.
Proof.
  intros Hk Hd. unfold wrap_direction, dict_get_or_none. rewrite Hk.
  apply Qle_bool_iff in Hd. now rewrite Hd.
Qed.

Lemma wrap_direction_large (k : string) (rec : gmap string (option Q)) (d : Q) :
  rec !! k = Some (Some d) -> (359 < d)%Q ->
  wrap_direction k rec = <[k := Some (d - 360)%Q]> rec.
Proof.
  intros Hk Hd. unfold wrap_direction, dict_get_or_none. rewrite Hk.
  destruct (Qle_bool d 359) eqn:E; [|reflexivity].
  apply Qle_bool_iff in E. exfalso. apply (Qlt_irrefl d).
  eapply Qle_lt_trans; eassumption.
Qed.

Lemma wrap_direction_null (k : string) (rec : gmap string (option Q)) :
  dict_get_or_none rec k = None -> wrap_direction k rec = rec.
Proof. intros H. unfold wrap_direction. now rewrite H. Qed.

Lemma lookup_wrap_direction_ne (k k' : string) (rec : gmap string (option Q)) :
  k <> k' -> wrap_direction k rec !! k' = rec !! k'.
Proof.
  intros Hne. unfold wrap_direction.
  destruct (dict_get_or_none rec k) as [d|]; [|reflexivity].
  destruct (negb (Qle_bool d 359)); [|reflexivity].
  now apply lookup_insert_ne.
Qed.

Lemma lookup_wrap_direction_eq (k : string) (rec : gmap string (option Q)) (v : option Q) :
  rec !! k = Some v ->
  exists v', wrap_direction k rec !! k = Some v' /\ (v = None -> v' = None).
Proof.
  intros Hk. unfold wrap_direction, dict_get_or_none. rewrite Hk.
  destruct v as [d|].
  - destruct (negb (Qle_bool d 359)).
    + rewrite lookup_insert_eq. eexists; split; [reflexivity|discriminate].
    + rewrite Hk. eexists; split; [reflexivity|discriminate].
  - rewrite Hk. eauto.
Qed.

(** Outside the open interval between 359 and 360 the single subtraction
    lands in [[0, 359]]; whole degrees are the usual case. *)
Lemma wrap_direction_in_range (k : string) (rec : gmap string (option Q)) (d : Q) :
  rec !! k = Some (Some d) ->
  (0 <= d <= 359 \/ 360 <= d <= 719)%Q ->
  exists d', wrap_direction k rec !! k = Some (Some d') /\ (0 <= d' <= 359)%Q.
Proof.
  intros Hk [Hd | Hd].
  - rewrite (wrap_direction_small k rec d Hk) by lra. eauto.
  - rewrite (wrap_direction_large k rec d Hk) by lra.
    rewrite lookup_insert_eq. eexists. split; [reflexivity|lra].
Qed.

Lemma wrap_direction_whole_degrees (k : string) (rec : gmap string (option Q)) (z : Z) :
  rec !! k = Some (Some (inject_Z z)) -> (0 <= z <= 719)%Z ->
  exists d', wrap_direction k rec !! k = Some (Some d') /\ (0 <= d' <= 359)%Q.
Proof.
  intros Hk Hz. apply (wrap_direction_in_range k rec (inject_Z z) Hk).
  destruct (Z_le_gt_dec z 359) as [Hle | Hgt]; [left | right].
  - split; [change 0%Q with (inject_Z 0) | change 359%Q with (inject_Z 359)];
      rewrite <- Zle_Qle; lia.
  - split; [change 360%Q with (inject_Z 360) | change 719%Q with (inject_Z 719)];
      rewrite <- Zle_Qle; lia.
Qed.

(** A second pass changes nothing once the first has brought the direction
    to 359 or less. *)
Lemma wrap_direction_idempotent (k : string) (rec : gmap string (option Q)) (d : Q) :
  rec !! k = Some (Some d) -> (d <= 719)%Q ->
  wrap_direction k (wrap_direction k rec) = wrap_direction k rec.
Proof.
  intros Hk Hd.
  destruct (Qlt_le_dec 359 d) as [Hgt | Hle].
  - rewrite (wrap_direction_large k rec d Hk Hgt).
    apply (wrap_direction_small k _ (d - 360)%Q); [apply lookup_insert_eq | lra].
  - rewrite (wrap_direction_small k rec d Hk Hle).
    apply (wrap_direction_small k rec d Hk Hle).
Qed.

(** A record whose wind direction is 370 is uploaded with [wdir=10]. *)
Example wind_direction_370 (to_mps : speed_unit -> Q -> Q) (hi dp : Q -> Q -> option Q) :
  let record : gmap string (option Q) :=
    <["dateTime" := Some 1700000000%Q]>
      (<["usUnits" := Some METRICWX]> (<["windDir" := Some 370%Q]> ∅)) in
  exists rec',
    derive to_mps hi dp record record [] = Ok rec' /\
    exists values,
      format_values "4.10.2" 0 (mkThread "id" "key" _SERVER_URL false) rec' = Ok values /\
      dict_lookup "wdir" values = Some "10".
Proof.
  intros record. apply run_returns. apply run_returns.
  vm_compute. reflexivity.
Qed.

(** C4: an average direction of 359.5 degrees, which two rows of 359 and 360
    degrees produce, is greater than 359 and less than 360: the subtraction
    makes it -0.5, which is below the range [[0, 359]] that the step is there
    to ensure, and the upload carries [wdiravg=-0]. *)
Theorem wrap_direction_below_zero
    (to_mps : speed_unit -> Q -> Q) (hi dp : Q -> Q -> option Q) :
  let db := [mkRow 1699999700 (Some 3%Q) (Some 4%Q) (Some 359%Q);
             mkRow 1700000000 (Some 3%Q) (Some 4%Q) (Some 360%Q)] in
  let record : gmap string (option Q) :=
    <["dateTime" := Some 1700000000%Q]> (<["usUnits" := Some METRICWX]> ∅) in
  _get_winddiravg db (Some 1700000000%Q) default_interval = Ok (Some (719 # 2)%Q) /\
  (0 <= 719 # 2 < 719)%Q /\
  ~ (0 <= -1 # 2)%Q /\
  exists rec',
    derive to_mps hi dp record record db = Ok rec' /\
    rec' !! "winddiravg" = Some (Some (-1 # 2)%Q) /\
    exists values,
      format_values "4.10.2" 0 (mkThread "id" "key" _SERVER_URL false) rec' = Ok values /\
      dict_lookup "wdiravg" values = Some "-0".
Proof.
  intros db record.
  split; [vm_compute; reflexivity|].
  split; [split; [discriminate | reflexivity]|].
  split; [intros H; apply H; reflexivity|].
  apply run_returns.
  assert (Hvalues : forall (rec' : gmap string (option Q)) (P : Prop),
             P /\ match format_values "4.10.2" 0 (mkThread "id" "key" _SERVER_URL false) rec' with
                  | Ok values => dict_lookup "wdiravg" values = Some "-0"
                  | Raise _ => False
                  end ->
             P /\ exists values,
                 format_values "4.10.2" 0 (mkThread "id" "key" _SERVER_URL false) rec' = Ok values /\
                 dict_lookup "wdiravg" values = Some "-0").
  { intros rec' P [HP Hrun]. split; [exact HP|]. now apply run_returns. }
  match goal with
  | |- match ?r with Ok _ => _ | Raise _ => _ end =>
      cut (match r with
           | Ok rec' =>
               rec' !! "winddiravg" = Some (Some (-1 # 2)%Q) /\
               match format_values "4.10.2" 0 (mkThread "id" "key" _SERVER_URL false) rec' with
               | Ok values => dict_lookup "wdiravg" values = Some "-0"
               | Raise _ => False
               end
           | Raise _ => False
           end);
      [destruct r as [rec'|e]; [apply Hvalues | tauto]|]
  end.
  vm_compute. split; reflexivity.
Qed.

(** ** The derived record *)

Lemma lookup_set_battery_ne (src dst k : string) (record rec : gmap string (option Q)) :
  dst <> k -> set_battery src dst record rec !! k = rec !! k.
Proof.
  intros Hne. unfold set_battery.
  destruct (record !! src); [now apply lookup_insert_ne | reflexivity].
Qed.

Lemma lookup_set_battery_eq (src dst : string) (record rec : gmap string (option Q)) :
  set_battery src dst record rec !! dst =
  match record !! src with
  | Some x => Some (_invert x)
  | None => rec !! dst
  end.
Proof.
  unfold set_battery.
  destruct (record !! src); [apply lookup_insert_eq | reflexivity].
Qed.

Lemma lookup_set_indoor_ne (hi dp : Q -> Q -> option Q) (k : string)
    (rec : gmap string (option Q)) :
  k <> "inheatindex" -> k <> "indewpoint" -> set_indoor hi dp rec !! k = rec !! k.
Proof.
  intros H1 H2. unfold set_indoor.
  destruct (contains rec "inTemp" && contains rec "inHumidity"); [|reflexivity].
  rewrite !lookup_insert_ne by congruence. reflexivity.
Qed.

Lemma set_indoor_heatindex (hi dp : Q -> Q -> option Q) (rec : gmap string (option Q)) :
  set_indoor hi dp rec !! "inheatindex" =
  if contains rec "inTemp" && contains rec "inHumidity"
  then Some (heatindexC hi (dict_get_or_none rec "inTemp")
               (dict_get_or_none rec "inHumidity"))
  else rec !! "inheatindex".
Proof.
  unfold set_indoor.
  destruct (contains rec "inTemp" && contains rec "inHumidity"); [|reflexivity].
  rewrite lookup_insert_ne by discriminate. apply lookup_insert_eq.
Qed.

Lemma set_indoor_dewpoint (hi dp : Q -> Q -> option Q) (rec : gmap string (option Q)) :
  set_indoor hi dp rec !! "indewpoint" =
  if contains rec "inTemp" && contains rec "inHumidity"
  then Some (dewpointC dp (dict_get_or_none rec "inTemp")
               (dict_get_or_none rec "inHumidity"))
  else rec !! "indewpoint".
Proof.
  unfold set_indoor.
  destruct (contains rec "inTemp" && contains rec "inHumidity"); [|reflexivity].
  rewrite lookup_insert_eq. unfold dict_get_or_none.
  rewrite !lookup_insert_ne by discriminate. reflexivity.
Qed.

Lemma convert_windspeed_returns (to_mps : speed_unit -> Q -> Q) (v us : option Q) :
  (us = None \/ exists u, us = Some u /\ is_unit_system u) ->
  exists w, _convert_windspeed to_mps v us = Ok w /\ (v = None -> w = None).
Proof.
  intros [-> | (u & -> & Hu)]; [exists None; split; reflexivity|].
  unfold _convert_windspeed.
  destruct (negb (Qeq_bool u METRICWX)); [|eauto].
  destruct (getStandardUnitType_total u Hu) as [unit ->].
  cbn [mbind result_bind].
  destruct unit, v; cbn; eexists; (split; [reflexivity | congruence]).
Qed.

(** The lookups of a key that a step of [derive] does not assign. *)
Ltac other_key :=
  repeat first
    [ rewrite lookup_set_battery_ne by discriminate
    | rewrite lookup_set_indoor_ne by discriminate
    | rewrite lookup_wrap_direction_ne by discriminate
    | rewrite lookup_insert_ne by discriminate ].

Lemma lookup_set_batteries_ne (k : string) (record rec : gmap string (option Q)) :
  Forall (fun ch => snd ch <> k) battery_channels ->
  set_batteries record rec !! k = rec !! k.
Proof.
  intros H. unfold set_batteries.
  repeat (apply Forall_cons_1 in H; destruct H as [? H]); cbn [snd] in *.
  rewrite !lookup_set_battery_ne by assumption. reflexivity.
Qed.

Lemma lookup_set_batteries (src dst : string) (record rec : gmap string (option Q)) :
  In (src, dst) battery_channels ->
  set_batteries record rec !! dst =
  match record !! src with
  | Some x => Some (_invert x)
  | None => rec !! dst
  end.
Proof.
  unfold set_batteries, battery_channels. cbn [In].
  intros [H | [H | [H | [H | [H | []]]]]]; injection H as <- <-;
    other_key; rewrite lookup_set_battery_eq;
    destruct (record !! _); try reflexivity; other_key; reflexivity.
Qed.

(** What [derive] returns, step by step, on a record that carries a
    timestamp and a unit system. *)
Lemma derive_returns (to_mps : speed_unit -> Q -> Q) (hi dp : Q -> Q -> option Q)
    (record rec : gmap string (option Q)) (db : list row) (ts : Q) (us : option Q) :
  record !! "dateTime" = Some (Some ts) ->
  record !! "usUnits" = Some us ->
  (us = None \/ exists u, us = Some u /\ is_unit_system u) ->
  exists windavg windhi,
    let rows := window_rows db (ts - default_interval)%Q ts in
    _convert_windspeed to_mps (avg_windSpeed rows) us = Ok windavg /\
    _convert_windspeed to_mps (max_speed_or_gust rows) us = Ok windhi /\
    derive to_mps hi dp record rec db =
    Ok (set_batteries record
          (set_indoor hi dp
             (<["windhi" := windhi]>
                (<["windavg" := windavg]>
                   (wrap_direction "winddiravg"
                      (wrap_direction "windDir"
                         (<["winddiravg" := avg_windDir rows]>
                            (<["windhi" := max_speed_or_gust rows]>
                               (<["windavg" := avg_windSpeed rows]> rec))))))))).
Proof.
  intros Hts Hus Hvalid. cbn zeta.
  set (rows := window_rows db (ts - default_interval)%Q ts).
  destruct (convert_windspeed_returns to_mps (avg_windSpeed rows) us Hvalid)
    as (windavg & Havg & _).
  destruct (convert_windspeed_returns to_mps (max_speed_or_gust rows) us Hvalid)
    as (windhi & Hhi & _).
  exists windavg, windhi. split; [exact Havg|]. split; [exact Hhi|].
  unfold derive, getitem. rewrite Hts, Hus.
  unfold _get_windavg, _get_windhi, _get_winddiravg, getSql_aggregate.
  cbn [number first_column mbind result_bind]. fold rows.
  match goal with
  | |- context [dict_get_or_none ?m "windavg"] =>
      replace (dict_get_or_none m "windavg") with (avg_windSpeed rows)
        by (unfold dict_get_or_none; other_key; now rewrite lookup_insert_eq)
  end.
  rewrite Havg. cbn [mbind result_bind].
  match goal with
  | |- context [dict_get_or_none ?m "windhi"] =>
      replace (dict_get_or_none m "windhi") with (max_speed_or_gust rows)
        by (unfold dict_get_or_none; other_key; now rewrite lookup_insert_eq)
  end.
  rewrite Hhi. reflexivity.
Qed.

(** C3, as the code has it: on a record with a timestamp and a unit system,
    [get_record] returns a record in which [windavg], [windhi] and
    [winddiravg] are always set, to a number or to null, and are null when
    the window gives null; the indoor heat index and dew point are set
    exactly when the converted record carries both [inTemp] and
    [inHumidity], and a battery flag exactly when the raw record carries
    its status; a field that is not set is left as the converted record has
    it.  A field that is set is null whenever one of its inputs is null. *)
Theorem get_record_secondary_fields
    (to_mps : speed_unit -> Q -> Q)
    (restx_get_record : gmap string (option Q) -> list row -> result (gmap string (option Q)))
    (to_METRICWX : gmap string (option Q) -> result (gmap string (option Q)))
    (hi dp : Q -> Q -> option Q)
    (record rec0 rec1 : gmap string (option Q)) (db : list row)
    (ts : Q) (us : option Q)
    (Hbase : restx_get_record record db = Ok rec0)
    (Hconv : to_METRICWX rec0 = Ok rec1)
    (Hts : record !! "dateTime" = Some (Some ts))
    (Hus : record !! "usUnits" = Some us)
    (Hvalid : us = None \/ exists u, us = Some u /\ is_unit_system u) :
  let rows := window_rows db (ts - default_interval)%Q ts in
  exists rec',
    get_record to_mps restx_get_record to_METRICWX hi dp record db = Ok rec' /\
    (* the three windowed fields *)
    (exists v, rec' !! "windavg" = Some v /\ (avg_windSpeed rows = None -> v = None)) /\
    (exists v, rec' !! "windhi" = Some v /\ (max_speed_or_gust rows = None -> v = None)) /\
    (exists v, rec' !! "winddiravg" = Some v /\ (avg_windDir rows = None -> v = None)) /\
    (* the indoor indices *)
    (if contains rec1 "inTemp" && contains rec1 "inHumidity"
     then
       rec' !! "inheatindex" =
         Some (heatindexC hi (dict_get_or_none rec1 "inTemp")
                 (dict_get_or_none rec1 "inHumidity")) /\
       rec' !! "indewpoint" =
         Some (dewpointC dp (dict_get_or_none rec1 "inTemp")
                 (dict_get_or_none rec1 "inHumidity")) /\
       (dict_get_or_none rec1 "inTemp" = None \/ dict_get_or_none rec1 "inHumidity" = None ->
        rec' !! "inheatindex" = Some None /\ rec' !! "indewpoint" = Some None)
     else
       rec' !! "inheatindex" = rec1 !! "inheatindex" /\
       rec' !! "indewpoint" = rec1 !! "indewpoint") /\
    (* the battery flags *)
    (forall src dst, In (src, dst) battery_channels ->
       rec' !! dst = match record !! src with
                     | Some x => Some (_invert x)
                     | None => rec1 !! dst
                     end) /\
    (forall src dst, In (src, dst) battery_channels ->
       record !! src = Some None -> rec' !! dst = Some None).
Proof.
  intros rows.
  destruct (derive_returns to_mps hi dp record rec1 db ts us Hts Hus Hvalid)
    as (windavg & windhi & Havg & Hhi & Hderive).
  fold rows in Havg, Hhi, Hderive.
  eexists. split.
  { unfold get_record. rewrite Hbase. cbn [mbind result_bind].
    rewrite Hconv. cbn [mbind result_bind]. exact Hderive. }
  assert (Hbat : forall src dst r,
             In (src, dst) battery_channels ->
             set_batteries record (set_indoor hi dp r) !! dst =
             match record !! src with
             | Some x => Some (_invert x)
             | None => r !! dst
             end).
  { intros src dst r Hin. rewrite (lookup_set_batteries src dst) by exact Hin.
    destruct (record !! src); [reflexivity|].
    unfold battery_channels in Hin. cbn [In] in Hin.
    destruct Hin as [H | [H | [H | [H | [H | []]]]]]; injection H as <- <-;
      now rewrite lookup_set_indoor_ne by discriminate. }
  assert (Hnull : forall v w, _convert_windspeed to_mps v us = Ok w -> v = None -> w = None).
  { intros v w Hw Hv.
    destruct (convert_windspeed_returns to_mps v us Hvalid) as (w' & Hw' & Hn).
    rewrite Hw in Hw'. injection Hw' as <-. auto. }
  split; [|split; [|split; [|split; [|split]]]].
  - exists windavg. split; [|eapply Hnull; eassumption].
    rewrite lookup_set_batteries_ne by (repeat constructor; discriminate).
    other_key. apply lookup_insert_eq.
  - exists windhi. split; [|eapply Hnull; eassumption].
    rewrite lookup_set_batteries_ne by (repeat constructor; discriminate).
    other_key. apply lookup_insert_eq.
  - rewrite lookup_set_batteries_ne by (repeat constructor; discriminate).
    other_key.
    destruct (lookup_wrap_direction_eq "winddiravg"
                (wrap_direction "windDir"
                   (<["winddiravg" := avg_windDir rows]>
                      (<["windhi" := max_speed_or_gust rows]>
                         (<["windavg" := avg_windSpeed rows]> rec1))))
                (avg_windDir rows)) as (v' & Hv' & Hn).
    { other_key. apply lookup_insert_eq. }
    exists v'. split; assumption.
  - rewrite !lookup_set_batteries_ne by (repeat constructor; discriminate).
    rewrite set_indoor_heatindex, set_indoor_dewpoint.
    unfold contains, dict_get_or_none. other_key.
    destruct (rec1 !! "inTemp") as [t|], (rec1 !! "inHumidity") as [h|];
      cbn [andb]; other_key; try (split; reflexivity).
    split; [reflexivity|]. split; [reflexivity|].
    intros [-> | ->]; [split; reflexivity|].
    destruct t; split; reflexivity.
  - intros src dst Hin. rewrite (Hbat src dst _ Hin).
    destruct (record !! src); [reflexivity|].
    unfold battery_channels in Hin. cbn [In] in Hin.
    destruct Hin as [H | [H | [H | [H | [H | []]]]]]; injection H as <- <-;
      other_key; reflexivity.
  - intros src dst Hin Hsrc. rewrite (Hbat src dst _ Hin), Hsrc. reflexivity.
Qed.

Lemma get_record_secondary_fields_witness :
  let record : gmap string (option Q) :=
    <["dateTime" := Some 1700000000%Q]>
      (<["usUnits" := Some US]>
         (<["inTemp" := Some 20%Q]>
            (<["inHumidity" := None]>
               (<["txBatteryStatus" := Some 1%Q]>
                  (<["rainBatteryStatus" := None]> ∅))))) in
  let db := [mkRow 1699999900 None (Some 7%Q) None] in
  exists rec',
    get_record (fun _ q => q * (44704 # 100000))%Q (fun r _ => Ok r) Ok
      (fun t _ => Some t) (fun t _ => Some t) record db = Ok rec' /\
    rec' !! "windavg" = Some None /\
    rec' !! "inheatindex" = Some None /\
    rec' !! "bat01" = Some (Some 0%Q) /\
    rec' !! "bat03" = Some None /\
    rec' !! "bat02" = None.
Proof.
  intros record db.
  destruct (get_record_secondary_fields
              (fun _ q => q * (44704 # 100000))%Q (fun r _ => Ok r) Ok
              (fun t _ => Some t) (fun t _ => Some t)
              record record record db 1700000000%Q (Some US)
              eq_refl eq_refl eq_refl eq_refl
              (or_intror (ex_intro _ US (conj eq_refl (or_introl (Qeq_refl US))))))
    as (rec' & Hrun & (v & Hv & Hvnull) & _ & _ & Hin & Hbat & Hbatnull).
  exists rec'. split; [exact Hrun|].
  split; [rewrite Hv; f_equal; apply Hvnull; reflexivity|].
  split; [apply (proj2 (proj2 Hin)); right; reflexivity|].
  split; [apply (Hbat "txBatteryStatus" "bat01"); left; reflexivity|].
  split; [apply (Hbatnull "rainBatteryStatus" "bat03");
          [right; right; left; reflexivity | reflexivity]|].
  apply (Hbat "windBatteryStatus" "bat02"). right; left; reflexivity.
Defined.

(** C3, as stated, fails: a record without indoor readings and without
    battery statuses comes back without the keys [inheatindex],
    [indewpoint] and [bat01] to [bat05]: they are not set, neither to a
    value nor to null. *)
Lemma get_record_leaves_fields_unset :
  ~ (forall (record : gmap string (option Q)) (db : list row) rec',
       get_record (fun _ q => q) (fun r _ => Ok r) Ok
         (fun _ _ => None) (fun _ _ => None) record db = Ok rec' ->
       Forall (fun k => is_Some (rec' !! k)) secondary_fields).
Proof.
  intros H.
  pose (record := <["dateTime" := Some 1700000000%Q]>
                    (<["usUnits" := Some METRICWX]>
                       (<["outTemp" := Some (43 # 2)%Q]> (∅ : gmap string (option Q))))).
  assert (Hrun : exists rec',
             get_record (fun _ q => q) (fun r _ => Ok r) Ok
               (fun _ _ => None) (fun _ _ => None) record [] = Ok rec' /\
             rec' !! "inheatindex" = None).
  { apply run_returns. vm_compute. reflexivity. }
  destruct Hrun as (rec' & Hrun & Hnone).
  specialize (H record [] rec' Hrun).
  rewrite List.Forall_forall in H.
  destruct (H "inheatindex") as [v Hv].
  - unfold secondary_fields. cbn [app In]. tauto.
  - rewrite Hnone in Hv. discriminate Hv.
Qed.

(** ** The encoded fields *)

Lemma dict_lookup_set_eq (k v : string) (d : list (string * string)) :
  dict_lookup k (dict_set k v d) = Some v.
Proof.
  induction d as [|[k' v'] d IH]; cbn.
  - now rewrite String.eqb_refl.
  - destruct (String.eqb k' k) eqn:E; cbn; rewrite E; [reflexivity | exact IH].
Qed.

Lemma dict_lookup_set_ne (k k' v : string) (d : list (string * string)) :
  k <> k' -> dict_lookup k' (dict_set k v d) = dict_lookup k' d.
Proof.
  intros Hne. induction d as [|[k0 v0] d IH]; cbn.
  - apply String.eqb_neq in Hne. now rewrite Hne.
  - destruct (String.eqb k0 k) eqn:E; cbn.
    + apply String.eqb_eq in E. subst k0.
      apply String.eqb_neq in Hne. now rewrite Hne.
    + now rewrite IH.
Qed.

Lemma dict_lookup_absent (k : string) (d : list (string * string)) :
  ~ In k (List.map fst d) -> dict_lookup k d = None.
Proof.
  induction d as [|[k' v'] d IH]; cbn; [reflexivity|].
  intros Hnot. destruct (String.eqb k' k) eqn:E.
  - apply String.eqb_eq in E. tauto.
  - apply IH. tauto.
Qed.

Lemma lookup_add_field_ne (rec : gmap string (option Q)) (values : list (string * string))
    (item : string * map_entry) (k : string) :
  fst item <> k -> dict_lookup k (add_field rec values item) = dict_lookup k values.
Proof.
  intros Hne. unfold add_field.
  destruct (rec !! weewx_name (snd item)) as [[x|]|]; try reflexivity.
  now apply dict_lookup_set_ne.
Qed.

Lemma lookup_add_field_eq (rec : gmap string (option Q)) (values : list (string * string))
    (item : string * map_entry) :
  dict_lookup (fst item) values = None ->
  dict_lookup (fst item) (add_field rec values item) = encoded rec (snd item).
Proof.
  intros Hnone. unfold add_field, encoded.
  destruct (rec !! weewx_name (snd item)) as [[x|]|]; try exact Hnone.
  apply dict_lookup_set_eq.
Qed.

Lemma lookup_fold_add_field_ne (rec : gmap string (option Q))
    (dm : list (string * map_entry)) (values : list (string * string)) (k : string) :
  ~ In k (List.map fst dm) ->
  dict_lookup k (fold_left (add_field rec) dm values) = dict_lookup k values.
Proof.
  revert values. induction dm as [|item dm IH]; intros values Hnot; cbn; [reflexivity|].
  cbn in Hnot. rewrite IH by tauto. apply lookup_add_field_ne. tauto.
Qed.

(** The loop over a data map whose keys are distinct, from a dict that holds
    none of them. *)
Lemma lookup_fold_add_field (rec : gmap string (option Q))
    (dm : list (string * map_entry)) (values : list (string * string))
    (k : string) (e : map_entry) :
  List.NoDup (List.map fst dm) ->
  In (k, e) dm ->
  dict_lookup k values = None ->
  dict_lookup k (fold_left (add_field rec) dm values) = encoded rec e.
Proof.
  revert values. induction dm as [|item dm IH]; intros values Hnd Hin Hnone; [destruct Hin|].
  cbn in Hnd. apply List.NoDup_cons_iff in Hnd as [Hfresh Hnd].
  cbn [fold_left]. destruct Hin as [-> | Hin].
  - rewrite lookup_fold_add_field_ne by exact Hfresh.
    now apply (lookup_add_field_eq rec values (k, e)).
  - apply IH; [exact Hnd | exact Hin |].
    rewrite lookup_add_field_ne; [exact Hnone|].
    intros Heq. apply Hfresh. rewrite Heq.
    change k with (fst (k, e)). now apply List.in_map.
Qed.

Lemma DATA_MAP_keys_distinct : List.NoDup (List.map fst _DATA_MAP).
Proof.
  apply (List.NoDup_count_occ' string_dec).
  intros k Hk. cbn in Hk.
  repeat (destruct Hk as [<- | Hk]; [vm_compute; reflexivity|]).
  destruct Hk.
Qed.

(** No wcloud name of the data map is one of the six header names. *)
Lemma DATA_MAP_keys_not_header (k : string) (e : map_entry) :
  In (k, e) _DATA_MAP ->
  ~ In k ["ver"; "type"; "wid"; "key"; "time"; "date"].
Proof.
  intros Hin. cbn in Hin.
  repeat (destruct Hin as [H | Hin];
          [injection H as <- _; cbn; intros Hk;
           repeat (destruct Hk as [Hk | Hk]; [discriminate Hk|]); exact Hk|]).
  destruct Hin.
Qed.



(** The scenario of the specification, end to end: an empty window leaves
    [wspdavg] out of the URL and an outside temperature of 21.5 gives
    [temp=215]. *)
Example upload_of_a_record_with_an_empty_window
    (to_mps : speed_unit -> Q -> Q) (hi dp : Q -> Q -> option Q) :
  let record : gmap string (option Q) :=
    <["dateTime" := Some 1700000000%Q]>
      (<["usUnits" := Some METRICWX]>
         (<["outTemp" := Some (43 # 2)%Q]> (<["outHumidity" := Some 55%Q]> ∅))) in
  exists rec',
    derive to_mps hi dp record record [] = Ok rec' /\
    rec' !! "windavg" = Some None /\
    format_url "4.10.2" 0 0 (mkThread "id" "key" _SERVER_URL false) rec'
    = Ok ("http://api.weathercloud.net/v01/set?ver=4.10.2&type=251&wid=id&key=key&time=2213&date=20231114&temp=215&hum=55",
          []).
Proof.
  intros record. apply run_returns. vm_compute. split; reflexivity.
Qed.

(** ** The logged URL *)

Lemma append_assoc (a b c : string) : (a +:+ b) +:+ c = a +:+ (b +:+ c).
Proof.
  induction a as [|x a IH]; [reflexivity|].
  change (String x ((a +:+ b) +:+ c) = String x (a +:+ (b +:+ c))).
  f_equal. exact IH.
Qed.

Lemma no_amp_append (a b : string) : no_amp (a +:+ b) = no_amp a && no_amp b.
Proof.
  induction a as [|x a IH]; [reflexivity|].
  change (negb (Ascii.eqb x "&") && no_amp (a +:+ b)
          = negb (Ascii.eqb x "&") && no_amp a && no_amp b).
  rewrite IH. now rewrite andb_assoc.
Qed.

Lemma quote_char_no_amp (c : ascii) : no_amp (quote_char c) = true.
Proof. destruct c as [[] [] [] [] [] [] [] []]; vm_compute; reflexivity. Qed.

Lemma quote_plus_no_amp (s : string) : no_amp (quote_plus s) = true.
Proof.
  induction s as [|c s IH]; [reflexivity|].
  cbn [quote_plus]. now rewrite no_amp_append, quote_char_no_amp, IH.
Qed.

(** A pattern without ampersand starts [p] followed by an ampersand exactly
    when it starts [p]. *)
Lemma prefix_before_amp (pat p x : string) :
  no_amp pat = true -> pat <> EmptyString ->
  String.prefix pat (p +:+ String "&" x) = String.prefix pat p.
Proof.
  revert p. induction pat as [|a pat IH]; intros p Hpat Hne; [congruence|].
  cbn [no_amp] in Hpat. apply andb_true_iff in Hpat as [Ha Hpat].
  destruct p as [|c p].
  - change (EmptyString +:+ String "&" x) with (String "&" x).
    cbn [String.prefix].
    destruct (ascii_dec a "&") as [-> | _]; [discriminate Ha | reflexivity].
  - change (String c p +:+ String "&" x) with (String c (p +:+ String "&" x)).
    cbn [String.prefix].
    destruct (ascii_dec a c) as [_ | _]; [|reflexivity].
    destruct pat as [|b pat]; [destruct p; reflexivity|].
    apply IH; [exact Hpat | discriminate].
Qed.

Lemma prefix_append (pat x : string) : String.prefix pat (pat +:+ x) = true.
Proof.
  induction pat as [|a pat IH]; [destruct x; reflexivity|].
  change (String a pat +:+ x) with (String a (pat +:+ x)).
  cbn [String.prefix].
  destruct (ascii_dec a a) as [_ | Hne]; [exact IH | now destruct Hne].
Qed.

(** The scan splits at an ampersand: whatever happens before it, the scan
    is outside a match after it. *)
Lemma re_sub_key_amp (p x : string) (inside : bool) :
  re_sub_key inside (p +:+ String "&" x)
  = re_sub_key inside p +:+ String "&" (re_sub_key false x).
Proof.
  revert inside. induction p as [|c p IH]; intros inside.
  - change (EmptyString +:+ String "&" x) with (String "&" x).
    cbn [re_sub_key]. change (Ascii.eqb "&" "&") with true.
    cbn [negb]. rewrite andb_false_r.
    change (String "&" x) with (EmptyString +:+ String "&" x) at 1.
    rewrite prefix_before_amp by (reflexivity || discriminate).
    reflexivity.
  - change (String c p +:+ String "&" x) with (String c (p +:+ String "&" x)).
    cbn [re_sub_key].
    destruct (inside && negb (Ascii.eqb c "&")); [apply IH|].
    change (String c (p +:+ String "&" x)) with (String c p +:+ String "&" x).
    rewrite prefix_before_amp by (reflexivity || discriminate).
    destruct (String.prefix "key=" (String c p)).
    + rewrite IH. now rewrite append_assoc.
    + rewrite IH. reflexivity.
Qed.

(** Inside a match, a stretch without ampersand is consumed. *)
Lemma re_sub_key_inside (q x : string) :
  no_amp q = true -> re_sub_key true (q +:+ x) = re_sub_key true x.
Proof.
  induction q as [|c q IH]; cbn [no_amp]; intros Hq; [reflexivity|].
  apply andb_true_iff in Hq as [Hc Hq].
  change (String c q +:+ x) with (String c (q +:+ x)). cbn [re_sub_key].
  rewrite Hc. cbn [andb]. now apply IH.
Qed.

(** The [key] parameter of a query string, between two ampersands, is
    replaced whole. *)
Lemma re_sub_key_parameter (p q x : string) :
  no_amp q = true ->
  re_sub_key false (p +:+ "&key=" +:+ q +:+ String "&" x)
  = re_sub_key false p +:+ "&key=XXX&" +:+ re_sub_key false x.
Proof.
  intros Hq.
  change ("&key=" +:+ q +:+ String "&" x)
    with (String "&" ("key=" +:+ (q +:+ String "&" x))).
  rewrite re_sub_key_amp. f_equal.
  change ("&key=XXX&" +:+ re_sub_key false x)
    with (String "&" ("key=XXX" +:+ String "&" (re_sub_key false x))).
  f_equal.
  change ("key=" +:+ (q +:+ String "&" x))
    with (String "k" ("ey=" +:+ (q +:+ String "&" x))).
  cbn [re_sub_key andb].
  change (String "k" ("ey=" +:+ (q +:+ String "&" x)))
    with ("key=" +:+ (q +:+ String "&" x)).
  rewrite prefix_append. f_equal.
  rewrite (re_sub_key_inside "ey=") by reflexivity.
  rewrite re_sub_key_inside by exact Hq.
  apply (re_sub_key_amp EmptyString).
Qed.

Lemma add_field_cons (rec : gmap string (option Q)) (h : string * string)
    (tl : list (string * string)) (item : string * map_entry) :
  fst h <> fst item -> add_field rec (h :: tl) item = h :: add_field rec tl item.
Proof.
  intros Hne. unfold add_field.
  destruct (rec !! weewx_name (snd item)) as [[x|]|]; try reflexivity.
  destruct h as [k' v']. cbn [dict_set fst] in *.
  apply String.eqb_neq in Hne. now rewrite Hne.
Qed.

Lemma fold_add_field_cons (rec : gmap string (option Q)) (dm : list (string * map_entry))
    (h : string * string) (tl : list (string * string)) :
  ~ In (fst h) (List.map fst dm) ->
  fold_left (add_field rec) dm (h :: tl) = h :: fold_left (add_field rec) dm tl.
Proof.
  revert tl. induction dm as [|item dm IH]; intros tl Hnot; [reflexivity|].
  cbn [fold_left]. cbn in Hnot.
  rewrite add_field_cons by (intros E; apply Hnot; left; now rewrite E).
  apply IH. tauto.
Qed.

Lemma header_name_not_in_DATA_MAP (k : string) :
  In k ["ver"; "type"; "wid"; "key"; "time"; "date"] ->
  ~ In k (List.map fst _DATA_MAP).
Proof.
  intros Hk Hin. apply List.in_map_iff in Hin as ([k' e] & <- & Hin).
  exact (DATA_MAP_keys_not_header k' e Hin Hk).
Qed.

(** The header stays in front, in the order of the dict literal; the fields
    of the data map follow it. *)
Lemma format_values_header (ver : string) (self : WeatherCloudThread)
    (rec : gmap string (option Q)) (tt : struct_time) :
  fold_left (add_field rec) _DATA_MAP (header_values ver self tt)
  = (header_values ver self tt ++ fold_left (add_field rec) _DATA_MAP [])%list.
Proof.
  unfold header_values.
  repeat (rewrite fold_add_field_cons
            by (apply header_name_not_in_DATA_MAP; cbn; tauto)).
  reflexivity.
Qed.

Lemma quote_plus_key : quote_plus "key" = "key".
Proof. reflexivity. Qed.

Lemma append_String (c : ascii) (a b : string) : String c a +:+ b = String c (a +:+ b).
Proof. reflexivity. Qed.

Lemma append_empty (b : string) : EmptyString +:+ b = b.
Proof. reflexivity. Qed.

(** The URL around its [key] parameter. *)
Lemma url_shape (ver id key srv : string) (skip : bool) (tt : struct_time)
    (fields : list (string * string)) :
  srv +:+ "?" +:+
    urlencode (header_values ver (mkThread id key srv skip) tt ++ fields)%list
  = (srv +:+ "?" +:+ urlencode [("ver", ver); ("type", decimal 251); ("wid", id)])
    +:+ "&key=" +:+ quote_plus key +:+ "&"
    +:+ urlencode ([("time", strftime_HM tt); ("date", strftime_Ymd tt)] ++ fields)%list.
Proof.
  unfold header_values, urlencode.
  cbn [app List.map join_amp thread_id thread_key].
  unfold encode_pair at 4. cbn [fst snd].
  rewrite quote_plus_key.
  rewrite !append_assoc. rewrite !append_String, !append_empty.
  reflexivity.
Qed.

(** The line that [logdbg] writes for such a URL. *)
Lemma log_line_shape (front q back : string) :
  no_amp q = true ->
  logdbg ("url: " +:+ re_sub_key false (front +:+ "&key=" +:+ q +:+ "&" +:+ back))
  = (LOG_DEBUG,
     "restx: WeatherCloud: url: " +:+ re_sub_key false front +:+ "&key=XXX&"
       +:+ re_sub_key false back).
Proof.
  intros Hq.
  rewrite (append_String "&" EmptyString back), append_empty.
  rewrite re_sub_key_parameter by exact Hq.
  unfold logdbg, logmsg. f_equal.
Qed.

(** C9: when [weewx.debug] is 2 or more, [format_url] logs one line, and
    that line is the same whatever the key: in it the parameter [key=...]
    of the URL reads [key=XXX], while the URL that is returned carries the
    key. *)
Theorem format_url_log_hides_key
    (ver : string) (dbg now : Z) (id srv : string) (skip : bool)
    (rec : gmap string (option Q)) (ts : option Q)
    (Hts : rec !! "dateTime" = Some ts) (Hdbg : (2 <= dbg)%Z) :
  exists pre post front back : string,
    forall key : string,
      format_url ver dbg now (mkThread id key srv skip) rec
      = Ok (front +:+ "&key=" +:+ quote_plus key +:+ "&" +:+ back,
            [(LOG_DEBUG,
              "restx: WeatherCloud: url: " +:+ pre +:+ "&key=XXX&" +:+ post)]).
Proof.
  eexists. eexists. eexists. eexists. intros key.
  unfold format_url, format_values, getitem. rewrite Hts.
  cbn [mbind result_bind].
  rewrite format_values_header.
  apply Z.leb_le in Hdbg. rewrite Hdbg.
  cbn [server_url]. rewrite url_shape.
  rewrite log_line_shape by apply quote_plus_no_amp.
  reflexivity.
Qed.

Lemma format_url_log_hides_key_witness :
  let rec : gmap string (option Q) :=
    <["dateTime" := Some 1700000000%Q]> (<["outTemp" := Some (43 # 2)%Q]> ∅) in
  exists pre post front back : string,
    forall key : string,
      format_url "4.10.2" 2 0 (mkThread "station" key _SERVER_URL false) rec
      = Ok (front +:+ "&key=" +:+ quote_plus key +:+ "&" +:+ back,
            [(LOG_DEBUG,
              "restx: WeatherCloud: url: " +:+ pre +:+ "&key=XXX&" +:+ post)]).
Proof.
  intros rec.
  apply (format_url_log_hides_key "4.10.2" 2 0 "station" _SERVER_URL false rec
           (Some 1700000000%Q)).
  - reflexivity.
  - discriminate.
Defined.

(** ** The service *)

Lemma dispatch_all_unbound (self : WeatherCloud) (es : list event) :
  bound self = false -> dispatch_all self es = Ok self.
Proof.
  intros Hb. induction es as [|e es IH]; [reflexivity|].
  cbn [dispatch_all]. unfold dispatch. destruct e; rewrite ?Hb; exact IH.
Qed.

(** C8: [get_site_dict] of the host answers [None] when a required option
    is not specified.  With the account id or the key missing, the
    constructor then returns a service that has no queue and no thread, has
    started nothing and is bound to no event, so that no later archive
    record reaches it: every sequence of events leaves it as it is. *)
Theorem service_does_not_start_without_credentials
    (config_dict manager_dict : Type)
    (option_of : config_dict -> string -> option string)
    (get_site_dict : config_dict -> option (gmap string string))
    (get_manager_dict : config_dict -> result manager_dict)
    (Hrequired : forall cfg,
        option_of cfg "id" = None \/ option_of cfg "key" = None ->
        get_site_dict cfg = None)
    (cfg : config_dict)
    (Hmissing : option_of cfg "id" = None \/ option_of cfg "key" = None) :
  exists self,
    WeatherCloud_init config_dict manager_dict get_site_dict get_manager_dict
      cfg blank_service = Ok self /\
    archive_queue self = None /\
    archive_thread self = None /\
    started self = false /\
    bound self = false /\
    forall es : list event, dispatch_all self es = Ok self.
Proof.
  unfold WeatherCloud_init. rewrite (Hrequired cfg Hmissing).
  eexists. split; [reflexivity|].
  repeat split. intros es. now apply dispatch_all_unbound.
Qed.

Lemma service_does_not_start_without_credentials_witness :
  let get_site_dict := fun cfg : gmap string string =>
    match cfg !! "id", cfg !! "key" with
    | Some _, Some _ => Some cfg
    | _, _ => None
    end in
  let cfg : gmap string string := <["id" := "station"]> ∅ in
  exists self,
    WeatherCloud_init (gmap string string) unit get_site_dict (fun _ => Ok tt)
      cfg blank_service = Ok self /\
    archive_queue self = None /\
    archive_thread self = None /\
    started self = false /\
    bound self = false /\
    forall es : list event, dispatch_all self es = Ok self.
Proof.
  intros get_site_dict cfg.
  apply (service_does_not_start_without_credentials
           (gmap string string) unit (fun c k => c !! k) get_site_dict (fun _ => Ok tt)).
  - intros c [H | H]; unfold get_site_dict; rewrite H; [reflexivity|].
    destruct (c !! "id"); reflexivity.
  - right. reflexivity.
Defined.

(** ** The printed numbers *)

(** The integer that ['%.0f'] prints is within one half of the number. *)
Lemma round_half_even_near (q : Q) :
  (inject_Z (round_half_even q) - q <= 1 # 2)%Q /\
  (q - inject_Z (round_half_even q) <= 1 # 2)%Q.
Proof.
  unfold round_half_even.
  pose proof (Qfloor_le q) as Hlo. pose proof (Qlt_floor q) as Hhi.
  rewrite inject_Z_plus in Hhi. change (inject_Z 1) with 1%Q in Hhi.
  destruct (Qcompare_spec (q - inject_Z (Qfloor q)) (1 # 2)) as [He | Hl | Hg].
  - destruct (Z.even (Qfloor q)).
    + split; lra.
    + rewrite inject_Z_plus. change (inject_Z 1) with 1%Q. split; lra.
  - split; lra.
  - rewrite inject_Z_plus. change (inject_Z 1) with 1%Q. split; lra.
Qed.

Lemma round_half_even_whole (z : Z) : round_half_even (inject_Z z) = z.
Proof.
  unfold round_half_even. rewrite Qfloor_Z.
  destruct (Qcompare_spec (inject_Z z - inject_Z z) (1 # 2)) as [He | Hl | Hg].
  - exfalso. lra.
  - reflexivity.
  - exfalso. lra.
Qed.

Lemma round_half_even_nonneg (q : Q) : (0 <= q)%Q -> (0 <= round_half_even q)%Z.
Proof.
  intros Hq. unfold round_half_even.
  assert (Hf : (0 <= Qfloor q)%Z).
  { change 0%Z with (Qfloor 0). now apply Qfloor_resp_le. }
  destruct (_ ?= _)%Q; [destruct (Z.even _)| |]; lia.
Qed.

Lemma digits_of_uint (d : Decimal.uint) :
  all_digits (NilEmpty.string_of_uint d) = true.
Proof. induction d; cbn [NilEmpty.string_of_uint all_digits]; try exact IHd; reflexivity. Qed.

Lemma is_digit_not_minus (c : ascii) : is_digit c = true -> Ascii.eqb c "-" = false.
Proof.
  destruct c as [[] [] [] [] [] [] [] []]; vm_compute; intros H;
    first [reflexivity | discriminate H].
Qed.

Lemma decimal_is_literal (z : Z) :
  all_digits (decimal z) = true /\ is_integer_literal (decimal z) = true /\
  decimal z <> EmptyString.
Proof.
  unfold decimal, NilZero.string_of_uint.
  destruct (N.to_uint (Z.to_N z)) as [|d|d|d|d|d|d|d|d|d|d] eqn:E;
    try (split; [|split]; [reflexivity | reflexivity | discriminate]);
    pose proof (digits_of_uint d) as Hd;
    cbn [NilEmpty.string_of_uint all_digits is_integer_literal];
    (split; [|split]; [exact Hd | exact Hd | discriminate]).
Qed.

(** What ['%.0f'] prints is always an integer literal: decimal digits, at
    least one, after a minus sign when the number is negative. *)
Theorem format_0f_integer_literal (q : Q) :
  is_integer_literal (format_0f q) = true.
Proof.
  unfold format_0f. destruct (negb (Qle_bool 0 q)).
  - destruct (decimal_is_literal (round_half_even (- q))) as (Hd & _ & Hne).
    change ("-" +:+ decimal (round_half_even (- q)))
      with (String "-" (decimal (round_half_even (- q)))).
    cbn [is_integer_literal]. change (Ascii.eqb "-" "-") with true. cbn iota.
    rewrite Hd, andb_true_r. apply negb_true_iff.
    now apply String.eqb_neq.
  - apply decimal_is_literal.
Qed.

Lemma multipliers_positive (key : string) (e : map_entry) :
  In (key, e) _DATA_MAP -> (0 < multiplier e)%Q.
Proof.
  intros Hin. cbn in Hin.
  repeat (destruct Hin as [H | Hin]; [injection H as _ <-; reflexivity|]).
  destruct Hin.
Qed.

(** The uploaded integer, divided by the multiplier of its line, is within
    half a unit of the last digit kept of the reading: a reading [x] that
    is not negative is uploaded as the digits of an integer [n] with
    [n / mult] between [x - 1/(2 mult)] and [x + 1/(2 mult)]. *)
Theorem upload_value_precision
    (ver : string) (now : Z) (self : WeatherCloudThread)
    (rec : gmap string (option Q)) (ts : option Q)
    (key : string) (e : map_entry) (x : Q)
    (Hts : rec !! "dateTime" = Some ts)
    (Hin : In (key, e) _DATA_MAP)
    (Hx : rec !! weewx_name e = Some (Some x))
    (Hpos : (0 <= x)%Q) :
  exists (values : list (string * string)) (n : Z),
    format_values ver now self rec = Ok values /\
    dict_lookup key values = Some (decimal n) /\
    (0 <= n)%Z /\
    (x - (1 # 2) / multiplier e <= inject_Z n / multiplier e)%Q /\
    (inject_Z n / multiplier e <= x + (1 # 2) / multiplier e)%Q.
Proof.
  pose proof (multipliers_positive key e Hin) as Hm.
  assert (Hxm : (0 <= x * multiplier e)%Q).
  { apply Qmult_le_0_compat; [exact Hpos | now apply Qlt_le_weak]. }
  unfold format_values, getitem. rewrite Hts. cbn [mbind result_bind].
  eexists. exists (round_half_even (x * multiplier e)).
  split; [reflexivity|].
  split.
  { rewrite (lookup_fold_add_field rec _DATA_MAP _ key e DATA_MAP_keys_distinct Hin)
      by (apply dict_lookup_absent; exact (DATA_MAP_keys_not_header key e Hin)).
    unfold encoded. rewrite Hx. destruct (entry_format e). cbn [percent].
    unfold format_0f. apply Qle_bool_iff in Hxm as ->. reflexivity. }
  split; [now apply round_half_even_nonneg|].
  destruct (round_half_even_near (x * multiplier e)) as [Hup Hdown].
  assert (Hne : ~ (multiplier e == 0)%Q) by (intros E; rewrite E in Hm; discriminate Hm).
  split.
  - apply Qle_shift_div_l; [exact Hm|].
    assert (E : Qeq ((x - (1 # 2) / multiplier e) * multiplier e)
                    (x * multiplier e - (1 # 2))) by (field; exact Hne).
    rewrite E. lra.
  - apply Qle_shift_div_r; [exact Hm|].
    assert (E : Qeq ((x + (1 # 2) / multiplier e) * multiplier e)
                    (x * multiplier e + (1 # 2))) by (field; exact Hne).
    rewrite E. lra.
Qed.

Lemma upload_value_precision_witness :
  let rec : gmap string (option Q) :=
    <["dateTime" := Some 1700000000%Q]> (<["outTemp" := Some (2149 # 100)%Q]> ∅) in
  exists (values : list (string * string)) (n : Z),
    format_values "4.10.2" 0 (mkThread "id" "key" _SERVER_URL false) rec = Ok values /\
    dict_lookup "temp" values = Some (decimal n) /\
    (0 <= n)%Z /\
    ((2149 # 100) - (1 # 2) / 10 <= inject_Z n / 10)%Q /\
    (inject_Z n / 10 <= (2149 # 100) + (1 # 2) / 10)%Q.
Proof.
  intros rec.
  apply (upload_value_precision "4.10.2" 0 (mkThread "id" "key" _SERVER_URL false)
           rec (Some 1700000000%Q) "temp" (mkEntry "outTemp" pct_0f 10) (2149 # 100)%Q).
  - reflexivity.
  - left. reflexivity.
  - reflexivity.
  - discriminate.
Defined.

(** ** More on the derived record *)

(** How [get_record] fails on a record without its timestamp or its unit
    system: the missing key is reported, the timestamp first, and a null
    timestamp cannot be subtracted from.  The database is not consulted in
    the first two cases. *)
Theorem derive_raises
    (to_mps : speed_unit -> Q -> Q) (hi dp : Q -> Q -> option Q)
    (record rec : gmap string (option Q)) (db : list row) :
  (record !! "dateTime" = None ->
   derive to_mps hi dp record rec db = Raise (KeyError "dateTime")) /\
  (record !! "dateTime" = Some None ->
   derive to_mps hi dp record rec db = Raise TypeError) /\
  (forall ts, record !! "dateTime" = Some (Some ts) ->
   record !! "usUnits" = None ->
   derive to_mps hi dp record rec db = Raise (KeyError "usUnits")).
Proof.
  split; [|split].
  - intros Hts. unfold derive, getitem. rewrite Hts. reflexivity.
  - intros Hts. unfold derive, getitem. rewrite Hts. reflexivity.
  - intros ts Hts Hus. unfold derive, getitem. rewrite Hts, Hus.
    unfold _get_windavg, _get_windhi, _get_winddiravg, getSql_aggregate.
    reflexivity.
Qed.

Lemma derive_raises_witness :
  let f := fun (_ : speed_unit) (q : Q) => q in
  let none := fun _ _ : Q => @None Q in
  let db := [mkRow 1700000000 (Some 3%Q) (Some 4%Q) (Some 90%Q)] in
  derive f none none (<["usUnits" := Some METRICWX]> ∅) ∅ db
    = Raise (KeyError "dateTime") /\
  derive f none none (<["dateTime" := None]> ∅) ∅ db = Raise TypeError /\
  derive f none none (<["dateTime" := Some 1700000000%Q]> ∅) ∅ db
    = Raise (KeyError "usUnits").
Proof.
  intros f none db. split; [|split].
  - apply (proj1 (derive_raises f none none (<["usUnits" := Some METRICWX]> ∅) ∅ db)).
    reflexivity.
  - apply (proj1 (proj2 (derive_raises f none none (<["dateTime" := None]> ∅) ∅ db))).
    reflexivity.
  - apply (proj2 (proj2 (derive_raises f none none
                           (<["dateTime" := Some 1700000000%Q]> ∅) ∅ db))
             1700000000%Q); reflexivity.
Defined.

Lemma not_in_cons {A : Type} (x a : A) (l : list A) :
  ~ In x (a :: l) -> a <> x /\ ~ In x l.
Proof. cbn. intros H. split; [intros E | intros E]; apply H; tauto. Qed.

(** [get_record] assigns the wind direction, the windowed fields, the
    indoor indices and the battery flags, and nothing else: every other
    field of the converted record reaches the result unchanged, and a field
    the converted record lacks stays absent. *)
Theorem get_record_keeps_other_fields
    (to_mps : speed_unit -> Q -> Q)
    (restx_get_record : gmap string (option Q) -> list row -> result (gmap string (option Q)))
    (to_METRICWX : gmap string (option Q) -> result (gmap string (option Q)))
    (hi dp : Q -> Q -> option Q)
    (record rec0 rec1 : gmap string (option Q)) (db : list row)
    (ts : Q) (us : option Q)
    (Hbase : restx_get_record record db = Ok rec0)
    (Hconv : to_METRICWX rec0 = Ok rec1)
    (Hts : record !! "dateTime" = Some (Some ts))
    (Hus : record !! "usUnits" = Some us)
    (Hvalid : us = None \/ exists u, us = Some u /\ is_unit_system u) :
  exists rec',
    get_record to_mps restx_get_record to_METRICWX hi dp record db = Ok rec' /\
    forall k : string, ~ In k assigned_fields -> rec' !! k = rec1 !! k.
Proof.
  destruct (derive_returns to_mps hi dp record rec1 db ts us Hts Hus Hvalid)
    as (windavg & windhi & _ & _ & Hderive).
  eexists. split.
  { unfold get_record. rewrite Hbase. cbn [mbind result_bind].
    rewrite Hconv. cbn [mbind result_bind]. exact Hderive. }
  intros k Hk. unfold assigned_fields, secondary_fields, battery_channels in Hk.
  cbn [app List.map snd] in Hk.
  repeat (apply not_in_cons in Hk as [? Hk]).
  rewrite lookup_set_batteries_ne by (repeat constructor; assumption).
  rewrite lookup_set_indoor_ne by congruence.
  rewrite !lookup_insert_ne by assumption.
  rewrite !lookup_wrap_direction_ne by assumption.
  rewrite !lookup_insert_ne by assumption.
  reflexivity.
Qed.

Lemma get_record_keeps_other_fields_witness :
  let record : gmap string (option Q) :=
    <["dateTime" := Some 1700000000%Q]>
      (<["usUnits" := Some METRIC]> (<["outTemp" := Some (43 # 2)%Q]> ∅)) in
  exists rec',
    get_record (fun _ q => q * (277777778 # 1000000000))%Q (fun r _ => Ok r) Ok
      (fun _ _ => None) (fun _ _ => None) record [] = Ok rec' /\
    rec' !! "outTemp" = Some (Some (43 # 2)%Q) /\
    rec' !! "outHumidity" = None.
Proof.
  intros record.
  destruct (get_record_keeps_other_fields
              (fun _ q => q * (277777778 # 1000000000))%Q (fun r _ => Ok r) Ok
              (fun _ _ => None) (fun _ _ => None)
              record record record [] 1700000000%Q (Some METRIC)
              eq_refl eq_refl eq_refl eq_refl
              (or_intror (ex_intro _ METRIC
                            (conj eq_refl (or_intror (or_introl (Qeq_refl METRIC)))))))
    as (rec' & Hrun & Hkeep).
  exists rec'. split; [exact Hrun|]. split.
  - rewrite Hkeep; [reflexivity|].
    unfold assigned_fields, secondary_fields, battery_channels.
    cbn [app List.map snd In]. intros H.
    repeat (destruct H as [H | H]; [discriminate H|]). exact H.
  - rewrite Hkeep; [reflexivity|].
    unfold assigned_fields, secondary_fields, battery_channels.
    cbn [app List.map snd In]. intros H.
    repeat (destruct H as [H | H]; [discriminate H|]). exact H.
Defined.

(** The lookups of the record that [get_record] returns, gathered for the
    statements about a whole upload. *)
Lemma get_record_lookups
    (to_mps : speed_unit -> Q -> Q)
    (restx_get_record : gmap string (option Q) -> list row -> result (gmap string (option Q)))
    (to_METRICWX : gmap string (option Q) -> result (gmap string (option Q)))
    (hi dp : Q -> Q -> option Q)
    (record rec0 rec1 : gmap string (option Q)) (db : list row)
    (ts : Q) (us : option Q) :
  restx_get_record record db = Ok rec0 ->
  to_METRICWX rec0 = Ok rec1 ->
  record !! "dateTime" = Some (Some ts) ->
  record !! "usUnits" = Some us ->
  (us = None \/ exists u, us = Some u /\ is_unit_system u) ->
  let rows := window_rows db (ts - default_interval)%Q ts in
  exists rec' windavg windhi winddiravg,
    get_record to_mps restx_get_record to_METRICWX hi dp record db = Ok rec' /\
    rec' !! "dateTime" = rec1 !! "dateTime" /\
    rec' !! "windavg" = Some windavg /\
    _convert_windspeed to_mps (avg_windSpeed rows) us = Ok windavg /\
    rec' !! "windhi" = Some windhi /\
    _convert_windspeed to_mps (max_speed_or_gust rows) us = Ok windhi /\
    rec' !! "winddiravg" = Some winddiravg /\
    (avg_windDir rows = None -> winddiravg = None) /\
    (forall src dst, In (src, dst) battery_channels ->
       rec' !! dst = match record !! src with
                     | Some x => Some (_invert x)
                     | None => rec1 !! dst
                     end).
Proof.
  intros Hbase Hconv Hts Hus Hvalid rows.
  destruct (derive_returns to_mps hi dp record rec1 db ts us Hts Hus Hvalid)
    as (windavg & windhi & Havg & Hhi & Hderive).
  fold rows in Havg, Hhi, Hderive.
  destruct (lookup_wrap_direction_eq "winddiravg"
              (wrap_direction "windDir"
                 (<["winddiravg" := avg_windDir rows]>
                    (<["windhi" := max_speed_or_gust rows]>
                       (<["windavg" := avg_windSpeed rows]> rec1))))
              (avg_windDir rows)) as (winddiravg & Hdir & Hdirnull).
  { other_key. apply lookup_insert_eq. }
  eexists. exists windavg, windhi, winddiravg. split.
  { unfold get_record. rewrite Hbase. cbn [mbind result_bind].
    rewrite Hconv. cbn [mbind result_bind]. exact Hderive. }
  split; [|split; [|split; [|split; [|split; [|split; [|split]]]]]].
  - rewrite lookup_set_batteries_ne by (repeat constructor; discriminate).
    other_key. reflexivity.
  - rewrite lookup_set_batteries_ne by (repeat constructor; discriminate).
    other_key. apply lookup_insert_eq.
  - exact Havg.
  - rewrite lookup_set_batteries_ne by (repeat constructor; discriminate).
    other_key. apply lookup_insert_eq.
  - exact Hhi.
  - rewrite lookup_set_batteries_ne by (repeat constructor; discriminate).
    other_key. exact Hdir.
  - exact Hdirnull.
  - intros src dst Hin. rewrite (lookup_set_batteries src dst) by exact Hin.
    destruct (record !! src); [reflexivity|].
    unfold battery_channels in Hin. cbn [In] in Hin.
    destruct Hin as [H | [H | [H | [H | [H | []]]]]]; injection H as <- <-;
      other_key; reflexivity.
Qed.

(** The value that the loop of [format_url] leaves under the key of a line
    of the data map. *)
Lemma format_values_lookup (ver : string) (now : Z) (self : WeatherCloudThread)
    (rec : gmap string (option Q)) (ts : option Q) (key : string) (e : map_entry) :
  rec !! "dateTime" = Some ts ->
  In (key, e) _DATA_MAP ->
  exists values,
    format_values ver now self rec = Ok values /\
    dict_lookup key values = encoded rec e.
Proof.
  intros Hts Hin. unfold format_values, getitem. rewrite Hts.
  cbn [mbind result_bind]. eexists. split; [reflexivity|].
  apply (lookup_fold_add_field rec _DATA_MAP _ key e DATA_MAP_keys_distinct Hin).
  apply dict_lookup_absent. exact (DATA_MAP_keys_not_header key e Hin).
Qed.

(** With no row in the ten minutes before the record, the upload carries
    none of [wspdavg], [wspdhi] and [wdiravg], whatever the record and its
    unit system. *)
Theorem empty_window_upload
    (to_mps : speed_unit -> Q -> Q)
    (restx_get_record : gmap string (option Q) -> list row -> result (gmap string (option Q)))
    (to_METRICWX : gmap string (option Q) -> result (gmap string (option Q)))
    (hi dp : Q -> Q -> option Q)
    (ver : string) (now : Z) (self : WeatherCloudThread)
    (record rec0 rec1 : gmap string (option Q)) (db : list row)
    (ts : Q) (us t1 : option Q)
    (Hbase : restx_get_record record db = Ok rec0)
    (Hconv : to_METRICWX rec0 = Ok rec1)
    (Hts : record !! "dateTime" = Some (Some ts))
    (Hus : record !! "usUnits" = Some us)
    (Hvalid : us = None \/ exists u, us = Some u /\ is_unit_system u)
    (Hts1 : rec1 !! "dateTime" = Some t1)
    (Hempty : window_rows db (ts - default_interval)%Q ts = []) :
  exists rec' values,
    get_record to_mps restx_get_record to_METRICWX hi dp record db = Ok rec' /\
    format_values ver now self rec' = Ok values /\
    dict_lookup "wspdavg" values = None /\
    dict_lookup "wspdhi" values = None /\
    dict_lookup "wdiravg" values = None.
Proof.
  destruct (get_record_lookups to_mps restx_get_record to_METRICWX hi dp
              record rec0 rec1 db ts us Hbase Hconv Hts Hus Hvalid)
    as (rec' & windavg & windhi & winddiravg & Hrun & Hdt & Havg & Hcavg
        & Hhi & Hchi & Hdir & Hdirnull & _).
  rewrite Hempty in Hcavg, Hchi, Hdirnull.
  change (avg_windSpeed []) with (@None Q) in Hcavg.
  change (max_speed_or_gust []) with (@None Q) in Hchi.
  destruct (convert_windspeed_returns to_mps None us Hvalid) as (w & Hw & Hwnull).
  assert (windavg = None) as -> by (rewrite Hw in Hcavg; injection Hcavg as <-; auto).
  assert (windhi = None) as -> by (rewrite Hw in Hchi; injection Hchi as <-; auto).
  assert (winddiravg = None) as -> by (apply Hdirnull; reflexivity).
  rewrite Hts1 in Hdt.
  exists rec'.
  unfold format_values, getitem. rewrite Hdt. cbn [mbind result_bind].
  eexists. split; [exact Hrun|]. split; [reflexivity|].
  assert (Hkey : forall key e, In (key, e) _DATA_MAP ->
                   rec' !! weewx_name e = Some None ->
                   dict_lookup key
                     (fold_left (add_field rec') _DATA_MAP
                        (header_values ver self
                           (gmtime match t1 with Some t => Qfloor t | None => now end)))
                   = None).
  { intros key e Hin Hnull.
    rewrite (lookup_fold_add_field rec' _DATA_MAP _ key e DATA_MAP_keys_distinct Hin)
      by (apply dict_lookup_absent; exact (DATA_MAP_keys_not_header key e Hin)).
    unfold encoded. now rewrite Hnull. }
  split; [|split].
  - apply (Hkey "wspdavg" (mkEntry "windavg" pct_0f 10)); [cbn; tauto | exact Havg].
  - apply (Hkey "wspdhi" (mkEntry "windhi" pct_0f 10)); [cbn; tauto | exact Hhi].
  - apply (Hkey "wdiravg" (mkEntry "winddiravg" pct_0f 1)); [cbn; tauto | exact Hdir].
Qed.

Lemma empty_window_upload_witness :
  let record : gmap string (option Q) :=
    <["dateTime" := Some 1700000000%Q]>
      (<["usUnits" := Some US]> (<["outTemp" := Some (43 # 2)%Q]> ∅)) in
  let db := [mkRow 1699999400 (Some 3%Q) (Some 4%Q) (Some 90%Q);
             mkRow 1700000300 (Some 5%Q) (Some 6%Q) (Some 80%Q)] in
  exists rec' values,
    get_record (fun _ q => q * (44704 # 100000))%Q (fun r _ => Ok r) Ok
      (fun _ _ => None) (fun _ _ => None) record db = Ok rec' /\
    format_values "4.10.2" 0 (mkThread "id" "key" _SERVER_URL false) rec' = Ok values /\
    dict_lookup "wspdavg" values = None /\
    dict_lookup "wspdhi" values = None /\
    dict_lookup "wdiravg" values = None.
Proof.
  intros record db.
  apply (empty_window_upload
           (fun _ q => q * (44704 # 100000))%Q (fun r _ => Ok r) Ok
           (fun _ _ => None) (fun _ _ => None)
           "4.10.2" 0 (mkThread "id" "key" _SERVER_URL false)
           record record record db 1700000000%Q (Some US) (Some 1700000000%Q)
           eq_refl eq_refl eq_refl eq_refl
           (or_intror (ex_intro _ US (conj eq_refl (or_introl (Qeq_refl US)))))
           eq_refl eq_refl).
Defined.

(** A battery status that the raw record reports is uploaded inverted, as
    the single digit 1 when the status is 0 and as 0 for any other number. *)
Theorem battery_flag_upload
    (to_mps : speed_unit -> Q -> Q)
    (restx_get_record : gmap string (option Q) -> list row -> result (gmap string (option Q)))
    (to_METRICWX : gmap string (option Q) -> result (gmap string (option Q)))
    (hi dp : Q -> Q -> option Q)
    (ver : string) (now : Z) (self : WeatherCloudThread)
    (record rec0 rec1 : gmap string (option Q)) (db : list row)
    (ts : Q) (us t1 : option Q) (src dst key : string) (s : Q)
    (Hbase : restx_get_record record db = Ok rec0)
    (Hconv : to_METRICWX rec0 = Ok rec1)
    (Hts : record !! "dateTime" = Some (Some ts))
    (Hus : record !! "usUnits" = Some us)
    (Hvalid : us = None \/ exists u, us = Some u /\ is_unit_system u)
    (Hts1 : rec1 !! "dateTime" = Some t1)
    (Hch : In (src, dst) battery_channels)
    (Hkey : In (key, mkEntry dst pct_0f 1) _DATA_MAP)
    (Hs : record !! src = Some (Some s)) :
  exists rec' values,
    get_record to_mps restx_get_record to_METRICWX hi dp record db = Ok rec' /\
    format_values ver now self rec' = Ok values /\
    dict_lookup key values = Some (if Qeq_bool s 0 then "1" else "0").
Proof.
  destruct (get_record_lookups to_mps restx_get_record to_METRICWX hi dp
              record rec0 rec1 db ts us Hbase Hconv Hts Hus Hvalid)
    as (rec' & windavg & windhi & winddiravg & Hrun & Hdt & _ & _ & _ & _ & _ & _ & Hbat).
  rewrite Hts1 in Hdt.
  destruct (format_values_lookup ver now self rec' t1 key (mkEntry dst pct_0f 1) Hdt Hkey)
    as (values & Hvalues & Hlookup).
  exists rec', values. split; [exact Hrun|]. split; [exact Hvalues|].
  rewrite Hlookup. unfold encoded. cbn [weewx_name entry_format multiplier percent].
  rewrite (Hbat src dst Hch), Hs. cbn [_invert].
  destruct (Qeq_bool s 0); reflexivity.
Qed.

Lemma battery_flag_upload_witness :
  let record : gmap string (option Q) :=
    <["dateTime" := Some 1700000000%Q]>
      (<["usUnits" := Some METRICWX]> (<["rainBatteryStatus" := Some 1%Q]> ∅)) in
  exists rec' values,
    get_record (fun _ q => q) (fun r _ => Ok r) Ok
      (fun _ _ => None) (fun _ _ => None) record [] = Ok rec' /\
    format_values "4.10.2" 0 (mkThread "id" "key" _SERVER_URL false) rec' = Ok values /\
    dict_lookup "battery03" values = Some "0".
Proof.
  intros record.
  apply (battery_flag_upload
           (fun _ q => q) (fun r _ => Ok r) Ok (fun _ _ => None) (fun _ _ => None)
           "4.10.2" 0 (mkThread "id" "key" _SERVER_URL false)
           record record record [] 1700000000%Q (Some METRICWX) (Some 1700000000%Q)
           "rainBatteryStatus" "bat03" "battery03" 1%Q
           eq_refl eq_refl eq_refl eq_refl
           (or_intror (ex_intro _ METRICWX
                         (conj eq_refl (or_intror (or_intror (Qeq_refl METRICWX))))))
           eq_refl).
  - right. right. left. reflexivity.
  - cbn. tauto.
  - reflexivity.
Defined.

(** The two windowed speeds come from the database in the unit system of
    the raw record and are converted from it; the windowed direction is
    not converted, and a record whose unit system is null loses both
    speeds, whatever the database holds. *)
Theorem windowed_speeds_are_converted
    (to_mps : speed_unit -> Q -> Q)
    (restx_get_record : gmap string (option Q) -> list row -> result (gmap string (option Q)))
    (to_METRICWX : gmap string (option Q) -> result (gmap string (option Q)))
    (hi dp : Q -> Q -> option Q)
    (record rec0 rec1 : gmap string (option Q)) (db : list row)
    (ts : Q) (us : option Q)
    (Hbase : restx_get_record record db = Ok rec0)
    (Hconv : to_METRICWX rec0 = Ok rec1)
    (Hts : record !! "dateTime" = Some (Some ts))
    (Hus : record !! "usUnits" = Some us)
    (Hvalid : us = None \/ exists u, us = Some u /\ is_unit_system u) :
  let rows := window_rows db (ts - default_interval)%Q ts in
  exists rec',
    get_record to_mps restx_get_record to_METRICWX hi dp record db = Ok rec' /\
    match us with
    | None => rec' !! "windavg" = Some None /\ rec' !! "windhi" = Some None
    | Some u =>
        exists unit,
          getStandardUnitType_windSpeed u = Ok unit /\
          rec' !! "windavg" = Some (convert_speed to_mps (avg_windSpeed rows) unit) /\
          rec' !! "windhi" = Some (convert_speed to_mps (max_speed_or_gust rows) unit)
    end.
Proof.
  intros rows.
  destruct (get_record_lookups to_mps restx_get_record to_METRICWX hi dp
              record rec0 rec1 db ts us Hbase Hconv Hts Hus Hvalid)
    as (rec' & windavg & windhi & winddiravg & Hrun & _ & Havg & Hcavg
        & Hhi & Hchi & _ & _ & _).
  fold rows in Hcavg, Hchi.
  exists rec'. split; [exact Hrun|].
  destruct Hvalid as [-> | (u & -> & Hu)].
  - cbn in Hcavg, Hchi. injection Hcavg as <-. injection Hchi as <-. now split.
  - destruct (getStandardUnitType_total u Hu) as [unit Hunit].
    exists unit. split; [exact Hunit|].
    unfold _convert_windspeed in Hcavg, Hchi. rewrite Hunit in Hcavg, Hchi.
    destruct (negb (Qeq_bool u METRICWX)) eqn:E.
    + cbn in Hcavg, Hchi. injection Hcavg as <-. injection Hchi as <-. now split.
    + apply negb_false_iff in E.
      unfold getStandardUnitType_windSpeed in Hunit.
      destruct (Qeq_bool u US) eqn:E1.
      { apply Qeq_bool_iff in E, E1. rewrite E1 in E. discriminate E. }
      destruct (Qeq_bool u METRIC) eqn:E2.
      { apply Qeq_bool_iff in E, E2. rewrite E2 in E. discriminate E. }
      rewrite E in Hunit. injection Hunit as <-.
      injection Hcavg as <-. injection Hchi as <-. now split.
Qed.

Lemma windowed_speeds_are_converted_witness :
  let record : gmap string (option Q) :=
    <["dateTime" := Some 1700000000%Q]> (<["usUnits" := Some METRIC]> ∅) in
  let db := [mkRow 1699999700 (Some 36%Q) (Some 72%Q) (Some 90%Q)] in
  exists rec',
    get_record (fun _ q => q / (36 # 10))%Q (fun r _ => Ok r) Ok
      (fun _ _ => None) (fun _ _ => None) record db = Ok rec' /\
    exists unit,
      getStandardUnitType_windSpeed METRIC = Ok unit /\
      rec' !! "windavg"
        = Some (convert_speed (fun _ q => q / (36 # 10))%Q
                  (avg_windSpeed (window_rows db (1700000000 - default_interval) 1700000000))
                  unit) /\
      rec' !! "windhi"
        = Some (convert_speed (fun _ q => q / (36 # 10))%Q
                  (max_speed_or_gust (window_rows db (1700000000 - default_interval) 1700000000))
                  unit).
Proof.
  intros record db.
  apply (windowed_speeds_are_converted
           (fun _ q => q / (36 # 10))%Q (fun r _ => Ok r) Ok
           (fun _ _ => None) (fun _ _ => None)
           record record record db 1700000000%Q (Some METRIC)
           eq_refl eq_refl eq_refl eq_refl
           (or_intror (ex_intro _ METRIC
                         (conj eq_refl (or_intror (or_introl (Qeq_refl METRIC))))))).
Defined.

(** ** More on the windowed queries *)

(** The window is open below and closed above: a row stamped [ts - interval]
    is out, a row stamped [ts] is in. *)
Theorem window_rows_bounds (db : list row) (sts ts : Q) (r : row) :
  In r (window_rows db sts ts) <->
  In r db /\ (sts < row_dateTime r)%Q /\ (row_dateTime r <= ts)%Q.
Proof.
  unfold window_rows, in_window. rewrite List.filter_In, andb_true_iff.
  rewrite negb_true_iff, Qle_bool_iff.
  split; intros (Hin & Hlo & Hhi); (split; [exact Hin|]); (split; [|exact Hhi]).
  - apply Qnot_le_lt. intros Hle. apply Qle_bool_iff in Hle. congruence.
  - destruct (Qle_bool (row_dateTime r) sts) eqn:E; [|reflexivity].
    apply Qle_bool_iff in E. exfalso. apply (Qlt_irrefl sts).
    eapply Qlt_le_trans; eassumption.
Qed.

Lemma In_non_null (q : Q) (vs : list (option Q)) :
  In q (non_null vs) <-> In (Some q) vs.
Proof.
  induction vs as [|[x|] vs IH]; cbn; [tauto| |].
  - rewrite IH. split; intros [H | H]; auto; left; congruence.
  - rewrite IH. split; [auto | intros [H | H]; [discriminate H | exact H]].
Qed.

Lemma Qmax_upper (a b : Q) : (a <= Qmax a b)%Q /\ (b <= Qmax a b)%Q.
Proof.
  unfold Qmax. destruct (Qle_bool a b) eqn:E.
  - apply Qle_bool_iff in E. split; [exact E | apply Qle_refl].
  - split; [apply Qle_refl|].
    destruct (Qlt_le_dec b a) as [H | H]; [now apply Qlt_le_weak|].
    apply Qle_bool_iff in H. congruence.
Qed.

Lemma fold_Qmax_upper (qs : list Q) (q0 x : Q) :
  In x (q0 :: qs) -> (x <= fold_right Qmax q0 qs)%Q.
Proof.
  induction qs as [|q qs IH]; cbn [fold_right].
  - intros [<- | []]. apply Qle_refl.
  - intros [<- | [<- | H]].
    + eapply Qle_trans; [apply IH; left; reflexivity | apply Qmax_upper].
    + apply Qmax_upper.
    + eapply Qle_trans; [apply IH; right; exact H | apply Qmax_upper].
Qed.

Lemma fold_Qmax_in (qs : list Q) (q0 : Q) : In (fold_right Qmax q0 qs) (q0 :: qs).
Proof.
  induction qs as [|q qs IH]; cbn [fold_right]; [left; reflexivity|].
  unfold Qmax at 1. destruct (Qle_bool q (fold_right Qmax q0 qs)).
  - destruct IH as [H | H]; [left; exact H | right; right; exact H].
  - right; left; reflexivity.
Qed.

Lemma sql_max_spec (vs : list (option Q)) (m : Q) :
  sql_max vs = Some m ->
  In (Some m) vs /\ forall x, In (Some x) vs -> (x <= m)%Q.
Proof.
  unfold sql_max. destruct (non_null vs) as [|q0 qs] eqn:E; [discriminate|].
  intros [= <-]. split.
  - apply In_non_null. rewrite E. apply fold_Qmax_in.
  - intros x Hx. apply In_non_null in Hx. rewrite E in Hx.
    now apply fold_Qmax_upper.
Qed.

(** When the windowed maximum is a number, it is reported by a row of the
    window, as its gust or as its speed, and no row of the window reports a
    greater gust, nor a greater speed beside a gust. *)
Theorem get_windhi_is_greatest (db : list row) (ts interval m : Q)
    (Hm : _get_windhi db (Some ts) interval = Ok (Some m)) :
  let rows := window_rows db (ts - interval)%Q ts in
  (exists r, In r rows /\ (row_windGust r = Some m \/ row_windSpeed r = Some m)) /\
  (forall r g, In r rows -> row_windGust r = Some g ->
     (g <= m)%Q /\ forall s, row_windSpeed r = Some s -> (s <= m)%Q).
Proof.
  intros rows. unfold _get_windhi, getSql_aggregate in Hm.
  cbn [number mbind result_bind first_column] in Hm. fold rows in Hm.
  injection Hm as Hm. unfold max_speed_or_gust in Hm.
  apply sql_max_spec in Hm as [Hin Hup]. split.
  - apply List.in_map_iff in Hin as (r & Hr & Hin). exists r. split; [exact Hin|].
    unfold sql_case_ge in Hr.
    destruct (row_windSpeed r) as [s|], (row_windGust r) as [g|];
      try (left; exact Hr); try discriminate Hr.
    destruct (Qle_bool g s); [right | left]; exact Hr.
  - intros r g Hr Hg.
    assert (Hcase : In (sql_case_ge (row_windSpeed r) (row_windGust r))
                      (List.map (fun r => sql_case_ge (row_windSpeed r) (row_windGust r)) rows)).
    { apply List.in_map_iff. exists r. split; [reflexivity | exact Hr]. }
    rewrite Hg in Hcase. unfold sql_case_ge in Hcase.
    destruct (row_windSpeed r) as [s|].
    + destruct (Qle_bool g s) eqn:E.
      * apply Hup in Hcase. apply Qle_bool_iff in E. split.
        -- eapply Qle_trans; eassumption.
        -- intros s' [= <-]. exact Hcase.
      * apply Hup in Hcase. split; [exact Hcase|].
        intros s' [= <-].
        destruct (Qlt_le_dec g s) as [H | H].
        -- apply Qlt_le_weak in H. apply Qle_bool_iff in H. congruence.
        -- eapply Qle_trans; eassumption.
    + apply Hup in Hcase. split; [exact Hcase | intros s' Hs'; discriminate Hs'].
Qed.

Lemma get_windhi_is_greatest_witness :
  let db := [mkRow 1699999500 (Some 3%Q) (Some 8%Q) (Some 90%Q);
             mkRow 1699999800 (Some 9%Q) (Some 4%Q) (Some 95%Q);
             mkRow 1700000000 None (Some 6%Q) None] in
  let rows := window_rows db (1700000000 - 600)%Q 1700000000 in
  (exists r, In r rows /\ (row_windGust r = Some 9%Q \/ row_windSpeed r = Some 9%Q)) /\
  (forall r g, In r rows -> row_windGust r = Some g ->
     (g <= 9)%Q /\ forall s, row_windSpeed r = Some s -> (s <= 9)%Q).
Proof.
  intros db.
  apply (get_windhi_is_greatest db 1700000000%Q 600%Q 9%Q). reflexivity.
Defined.

Lemma Qsum_between (qs : list Q) (lo hi : Q) :
  (forall q, In q qs -> (lo <= q <= hi)%Q) ->
  (lo * inject_Z (Z.of_nat (length qs)) <= Qsum qs)%Q /\
  (Qsum qs <= hi * inject_Z (Z.of_nat (length qs)))%Q.
Proof.
  induction qs as [|q qs IH]; intros Hall.
  - cbn [length]. change (inject_Z (Z.of_nat 0)) with 0%Q.
    change (Qsum []) with 0%Q. split; lra.
  - destruct IH as [IHlo IHhi]; [intros x Hx; apply Hall; now right|].
    destruct (Hall q) as [Hlo Hhi]; [now left|].
    cbn [length Qsum fold_right]. fold (Qsum qs).
    rewrite Nat2Z.inj_succ. unfold Z.succ. rewrite inject_Z_plus.
    change (inject_Z 1) with 1%Q. split; lra.
Qed.

Lemma sql_avg_between (vs : list (option Q)) (lo hi a : Q) :
  sql_avg vs = Some a ->
  (forall q, In (Some q) vs -> (lo <= q <= hi)%Q) ->
  (lo <= a <= hi)%Q.
Proof.
  unfold sql_avg. destruct (non_null vs) as [|q0 qs] eqn:E; [discriminate|].
  intros [= <-] Hall.
  destruct (Qsum_between (q0 :: qs) lo hi) as [Hlo Hhi].
  { intros q Hq. apply Hall. apply In_non_null. now rewrite E. }
  assert (Hn : (0 < inject_Z (Z.of_nat (length (q0 :: qs))))%Q).
  { change 0%Q with (inject_Z 0). rewrite <- Zlt_Qlt. cbn [length]. lia. }
  split.
  - apply Qle_shift_div_l; assumption.
  - apply Qle_shift_div_r; assumption.
Qed.

(** A windowed average lies between the least and the greatest of the
    values it averages: if every speed (every direction) that the rows of
    the window report is between [lo] and [hi], so is the average. *)
Theorem windowed_averages_between (db : list row) (ts interval lo hi : Q) :
  let rows := window_rows db (ts - interval)%Q ts in
  (forall a, _get_windavg db (Some ts) interval = Ok (Some a) ->
     (forall r s, In r rows -> row_windSpeed r = Some s -> (lo <= s <= hi)%Q) ->
     (lo <= a <= hi)%Q) /\
  (forall a, _get_winddiravg db (Some ts) interval = Ok (Some a) ->
     (forall r d, In r rows -> row_windDir r = Some d -> (lo <= d <= hi)%Q) ->
     (lo <= a <= hi)%Q).
Proof.
  intros rows. split; intros a Ha Hall.
  - unfold _get_windavg, getSql_aggregate in Ha.
    cbn [number mbind result_bind first_column] in Ha. fold rows in Ha.
    injection Ha as Ha. apply (sql_avg_between _ lo hi a Ha).
    intros q Hq. apply List.in_map_iff in Hq as (r & Hr & Hin). eauto.
  - unfold _get_winddiravg, getSql_aggregate in Ha.
    cbn [number mbind result_bind first_column] in Ha. fold rows in Ha.
    injection Ha as Ha. apply (sql_avg_between _ lo hi a Ha).
    intros q Hq. apply List.in_map_iff in Hq as (r & Hr & Hin). eauto.
Qed.

Lemma windowed_averages_between_witness :
  let db := [mkRow 1699999500 (Some 3%Q) (Some 8%Q) (Some 350%Q);
             mkRow 1699999800 (Some 6%Q) None (Some 10%Q);
             mkRow 1700000000 None (Some 6%Q) None] in
  (3 <= 9 # 2 <= 6)%Q /\ (10 <= 360 # 2 <= 350)%Q.
Proof.
  intros db.
  pose proof (windowed_averages_between db 1700000000%Q 600%Q 3%Q 6%Q) as [Hspeed _].
  pose proof (windowed_averages_between db 1700000000%Q 600%Q 10%Q 350%Q) as [_ Hdir].
  split.
  - apply (Hspeed (9 # 2)%Q); [reflexivity|].
    intros r s Hr Hs. cbn in Hr.
    destruct Hr as [<- | [<- | [<- | []]]]; cbn in Hs; try discriminate Hs;
      injection Hs as <-; split; discriminate.
  - apply (Hdir (360 # 2)%Q); [reflexivity|].
    intros r d Hr Hd. cbn in Hr.
    destruct Hr as [<- | [<- | [<- | []]]]; cbn in Hd; try discriminate Hd;
      injection Hd as <-; split; discriminate.
Defined.

(** ** More on the service *)

(** With an id and a key, and the manager found, the constructor creates an
    empty queue and a thread for these credentials, starts the thread and
    binds the callback; it logs the version and the id, and never the
    key. *)
Theorem service_starts_with_credentials
    (config_dict manager_dict : Type)
    (get_site_dict : config_dict -> option (gmap string string))
    (get_manager_dict : config_dict -> result manager_dict)
    (cfg : config_dict) (site_dict : gmap string string) (i k : string)
    (md : manager_dict)
    (Hsite : get_site_dict cfg = Some site_dict)
    (Hid : site_dict !! "id" = Some i)
    (Hkey : site_dict !! "key" = Some k)
    (Hmd : get_manager_dict cfg = Ok md) :
  exists self thread,
    WeatherCloud_init config_dict manager_dict get_site_dict get_manager_dict
      cfg blank_service = Ok self /\
    archive_queue self = Some [] /\
    archive_thread self = Some thread /\
    thread_id thread = i /\
    thread_key thread = k /\
    server_url thread = default _SERVER_URL (site_dict !! "server_url") /\
    started self = true /\
    bound self = true /\
    syslog self = [(LOG_INFO, "restx: WeatherCloud: service version is 0.12");
                   (LOG_INFO, "restx: WeatherCloud: Data will be uploaded for id=" +:+ i)].
Proof.
  unfold WeatherCloud_init. rewrite Hsite, Hmd. cbn [mbind result_bind].
  unfold new_thread. rewrite Hid, Hkey. cbn [mbind result_bind].
  eexists. eexists. repeat split.
Qed.

Lemma service_starts_with_credentials_witness :
  let site : gmap string string := <["id" := "station"]> (<["key" := "s3cret"]> ∅) in
  exists self thread,
    WeatherCloud_init unit unit (fun _ => Some site) (fun _ => Ok tt)
      tt blank_service = Ok self /\
    archive_queue self = Some [] /\
    archive_thread self = Some thread /\
    thread_id thread = "station" /\
    thread_key thread = "s3cret" /\
    server_url thread = default _SERVER_URL (site !! "server_url") /\
    started self = true /\
    bound self = true /\
    syslog self = [(LOG_INFO, "restx: WeatherCloud: service version is 0.12");
                   (LOG_INFO, "restx: WeatherCloud: Data will be uploaded for id=" +:+ "station")].
Proof.
  intros site.
  apply (service_starts_with_credentials unit unit (fun _ => Some site) (fun _ => Ok tt)
           tt site "station" "s3cret" tt); reflexivity.
Defined.

(** Once the callback is bound and the queue exists, every archive record
    that the host announces is put at the end of the queue, in the order of
    the announcements; other events change nothing, and the callback never
    fails. *)
Theorem archive_records_are_queued_in_order
    (self : WeatherCloud) (q : list (gmap string (option Q))) (es : list event)
    (Hbound : bound self = true)
    (Hqueue : archive_queue self = Some q) :
  exists self',
    dispatch_all self es = Ok self' /\
    archive_queue self' = Some (q ++ records_of es)%list /\
    archive_thread self' = archive_thread self /\
    started self' = started self /\
    bound self' = true /\
    syslog self' = syslog self.
Proof.
  revert self q Hbound Hqueue. induction es as [|e es IH]; intros self q Hbound Hqueue.
  - exists self. cbn [dispatch_all records_of]. rewrite app_nil_r. now repeat split.
  - cbn [dispatch_all]. destruct e as [rec|].
    + unfold dispatch. rewrite Hbound. unfold new_archive_record. rewrite Hqueue.
      cbn [mbind result_bind].
      destruct (IH (mkService (Some (q ++ [rec])%list) (archive_thread self)
                      (started self) (bound self) (syslog self))
                  (q ++ [rec])%list Hbound eq_refl)
        as (self' & Hrun & Hq & Hth & Hst & Hb & Hlog).
      exists self'. split; [exact Hrun|].
      cbn [records_of]. rewrite Hq, <- app_assoc. now repeat split.
    + cbn [dispatch mbind result_bind records_of]. now apply IH.
Qed.

Lemma archive_records_are_queued_in_order_witness :
  let r1 : gmap string (option Q) := <["dateTime" := Some 1700000000%Q]> ∅ in
  let r2 : gmap string (option Q) := <["dateTime" := Some 1700000300%Q]> ∅ in
  let self := mkService (Some []) (Some (mkThread "id" "key" _SERVER_URL false))
                true true [] in
  exists self',
    dispatch_all self [NEW_ARCHIVE_RECORD r1; OTHER_EVENT; NEW_ARCHIVE_RECORD r2] = Ok self' /\
    archive_queue self'
      = Some ([] ++ records_of [NEW_ARCHIVE_RECORD r1; OTHER_EVENT; NEW_ARCHIVE_RECORD r2])%list /\
    archive_thread self' = archive_thread self /\
    started self' = started self /\
    bound self' = true /\
    syslog self' = syslog self.
Proof.
  intros r1 r2 self.
  apply (archive_records_are_queued_in_order self []); reflexivity.
Defined.

(** ** More on the request *)

(** The six header values are always in the query, whatever the record
    holds: the data map cannot overwrite them; and the URL begins with the
    server URL and a question mark. *)
Theorem format_url_header
    (ver : string) (dbg now : Z) (self : WeatherCloudThread)
    (rec : gmap string (option Q)) (ts : option Q)
    (Hts : rec !! "dateTime" = Some ts) :
  let tt := gmtime (match ts with Some t => Qfloor t | None => now end) in
  exists values log,
    format_url ver dbg now self rec
      = Ok (server_url self +:+ "?" +:+ urlencode values, log) /\
    dict_lookup "ver" values = Some ver /\
    dict_lookup "type" values = Some "251" /\
    dict_lookup "wid" values = Some (thread_id self) /\
    dict_lookup "key" values = Some (thread_key self) /\
    dict_lookup "time" values = Some (strftime_HM tt) /\
    dict_lookup "date" values = Some (strftime_Ymd tt).
Proof.
  intros tt. unfold format_url, format_values, getitem. rewrite Hts.
  cbn [mbind result_bind]. fold tt.
  eexists. eexists. split; [reflexivity|].
  repeat split;
    (rewrite lookup_fold_add_field_ne
       by (apply header_name_not_in_DATA_MAP; cbn [In]; tauto));
    reflexivity.
Qed.

Lemma format_url_header_witness :
  let rec : gmap string (option Q) :=
    <["dateTime" := Some 1700000000%Q]> (<["outTemp" := Some (43 # 2)%Q]> ∅) in
  exists values log,
    format_url "4.10.2" 0 0 (mkThread "station" "s3cret" _SERVER_URL false) rec
      = Ok (_SERVER_URL +:+ "?" +:+ urlencode values, log) /\
    dict_lookup "ver" values = Some "4.10.2" /\
    dict_lookup "type" values = Some "251" /\
    dict_lookup "wid" values = Some "station" /\
    dict_lookup "key" values = Some "s3cret" /\
    dict_lookup "time" values = Some (strftime_HM (gmtime 1700000000)) /\
    dict_lookup "date" values = Some (strftime_Ymd (gmtime 1700000000)).
Proof.
  intros rec.
  apply (format_url_header "4.10.2" 0 0 (mkThread "station" "s3cret" _SERVER_URL false)
           rec (Some 1700000000%Q)).
  reflexivity.
Defined.

(** The debug level decides only what is logged: the URL, or the exception
    of a record without timestamp, is the same at every level, nothing is
    logged below level 2 and one debug line from level 2 on. *)
Theorem format_url_debug_level
    (ver : string) (dbg dbg' now : Z) (self : WeatherCloudThread)
    (rec : gmap string (option Q)) :
  match format_url ver dbg now self rec, format_url ver dbg' now self rec with
  | Ok (url, log), Ok (url', _) =>
      url = url' /\
      if (dbg <? 2)%Z then log = []
      else exists line, log = [(LOG_DEBUG, line)]
  | Raise e, Raise e' => e = KeyError "dateTime" /\ e' = e /\ rec !! "dateTime" = None
  | _, _ => False
  end.
Proof.
  unfold format_url, format_values, getitem.
  destruct (rec !! "dateTime") as [ts|]; cbn [mbind result_bind]; [|now repeat split].
  split; [reflexivity|].
  rewrite Z.leb_antisym. destruct (dbg <? 2)%Z; cbn [negb]; [reflexivity|].
  eexists. reflexivity.
Qed.

Lemma length_append (a b : string) :
  String.length (a +:+ b) = (String.length a + String.length b)%nat.
Proof.
  induction a as [|c a IH]; [reflexivity|].
  change (S (String.length (a +:+ b)) = S (String.length a + String.length b)).
  now rewrite IH.
Qed.

Lemma all_digits_append (a b : string) :
  all_digits (a +:+ b) = all_digits a && all_digits b.
Proof.
  induction a as [|c a IH]; [reflexivity|].
  change (is_digit c && all_digits (a +:+ b) = is_digit c && all_digits a && all_digits b).
  now rewrite IH, andb_assoc.
Qed.

Lemma two_digits_shape (z : Z) :
  (0 <= z < 100)%Z ->
  String.length (two_digits z) = 2%nat /\ all_digits (two_digits z) = true.
Proof.
  intros Hz.
  assert (Hall : forallb (fun n => Nat.eqb (String.length (two_digits (Z.of_nat n))) 2
                                   && all_digits (two_digits (Z.of_nat n)))
                   (seq 0 100) = true) by (vm_compute; reflexivity).
  rewrite forallb_forall in Hall.
  assert (Hin : In (Z.to_nat z) (seq 0 100)) by (apply in_seq; lia).
  apply Hall in Hin. rewrite Z2Nat.id in Hin by lia.
  apply andb_true_iff in Hin as [Hlen Hdig].
  apply Nat.eqb_eq in Hlen. now split.
Qed.

(** The time of day is always four digits, the hour with its leading zero,
    for every timestamp, also a negative one. *)
Theorem time_field_is_four_digits (secs : Z) :
  String.length (strftime_HM (gmtime secs)) = 4%nat /\
  all_digits (strftime_HM (gmtime secs)) = true /\
  (0 <= tm_hour (gmtime secs) < 24)%Z /\
  (0 <= tm_min (gmtime secs) < 60)%Z /\
  (tm_hour (gmtime secs) * 3600 + tm_min (gmtime secs) * 60 <= secs mod 86400
   < tm_hour (gmtime secs) * 3600 + tm_min (gmtime secs) * 60 + 60)%Z.
Proof.
  assert (Hh : (0 <= tm_hour (gmtime secs) < 24)%Z).
  { cbn [gmtime tm_hour]. Z.div_mod_to_equations. lia. }
  assert (Hm : (0 <= tm_min (gmtime secs) < 60)%Z).
  { cbn [gmtime tm_min]. Z.div_mod_to_equations. lia. }
  destruct (two_digits_shape (tm_hour (gmtime secs))) as [Hlh Hdh]; [lia|].
  destruct (two_digits_shape (tm_min (gmtime secs))) as [Hlm Hdm]; [lia|].
  unfold strftime_HM.
  rewrite length_append, all_digits_append, Hlh, Hlm, Hdh, Hdm.
  repeat split; try lia.
  - cbn [gmtime tm_hour tm_min]. Z.div_mod_to_equations. lia.
  - cbn [gmtime tm_hour tm_min]. Z.div_mod_to_equations. lia.
Qed.

(** ** The THW index *)

(** [_calc_thw] gives null as soon as one operand is null; on numbers it is
    the heat index lowered by 1.34 degrees for each metre per second of
    wind. *)
Theorem calc_thw_closed_form (h w : Q) :
  _calc_thw None (Some w) = None /\
  _calc_thw (Some h) None = None /\
  _calc_thw None None = None /\
  exists t, _calc_thw (Some h) (Some w) = Some t /\ (t == h - (134 # 100) * w)%Q.
Proof.
  repeat split. eexists. split; [reflexivity|]. field.
Qed.

(** ** More on the wind direction *)

(** On a direction between 0 and 359, or between 360 and 719, the step
    does what its comment says: the result is in [[0, 359]], it is the
    direction itself or the direction less 360, a second pass changes
    nothing, and no other field is touched. *)
Theorem wrap_direction_normalizes
    (k : string) (rec : gmap string (option Q)) (d : Q)
    (Hk : rec !! k = Some (Some d))
    (Hd : (0 <= d <= 359 \/ 360 <= d <= 719)%Q) :
  exists d',
    wrap_direction k rec !! k = Some (Some d') /\
    (0 <= d' <= 359)%Q /\
    (d' = d \/ d' = (d - 360)%Q) /\
    wrap_direction k (wrap_direction k rec) = wrap_direction k rec /\
    forall k', k <> k' -> wrap_direction k rec !! k' = rec !! k'.
Proof.
  assert (Hidem : wrap_direction k (wrap_direction k rec) = wrap_direction k rec).
  { apply (wrap_direction_idempotent k rec d Hk). destruct Hd; lra. }
  assert (Hother : forall k', k <> k' -> wrap_direction k rec !! k' = rec !! k')
    by (intros k' Hne; now apply lookup_wrap_direction_ne).
  destruct Hd as [Hd | Hd].
  - exists d. split.
    { rewrite (wrap_direction_small k rec d Hk) by lra. exact Hk. }
    split; [exact Hd|]. split; [now left|]. split; [exact Hidem | exact Hother].
  - exists (d - 360)%Q. split.
    { rewrite (wrap_direction_large k rec d Hk) by lra. apply lookup_insert_eq. }
    split; [lra|]. split; [now right|]. split; [exact Hidem | exact Hother].
Qed.

Lemma wrap_direction_normalizes_witness :
  let rec : gmap string (option Q) :=
    <["windDir" := Some 370%Q]> (<["outTemp" := Some 20%Q]> ∅) in
  exists d',
    wrap_direction "windDir" rec !! "windDir" = Some (Some d') /\
    (0 <= d' <= 359)%Q /\
    (d' = 370%Q \/ d' = (370 - 360)%Q) /\
    wrap_direction "windDir" (wrap_direction "windDir" rec) = wrap_direction "windDir" rec /\
    forall k', "windDir" <> k' -> wrap_direction "windDir" rec !! k' = rec !! k'.
Proof.
  intros rec.
  apply (wrap_direction_normalizes "windDir" rec 370%Q).
  - reflexivity.
  - right. split; discriminate.
Defined.

Lemma get_windhi_with_gusts_witness :
  let db := [mkRow 1699999500 (Some 3%Q) (Some 8%Q) (Some 90%Q);
             mkRow 1699999800 None (Some 4%Q) (Some 95%Q);
             mkRow 1700000000 None None None] in
  _get_windhi db (Some 1700000000%Q) 600 = Ok (windowed_max_gust db 1700000000 600).
Proof.
  intros db. apply (get_windhi_with_gusts db 1700000000%Q 600%Q).
  constructor; [right; discriminate|].
  constructor; [left; reflexivity|].
  constructor; [left; reflexivity|].
  constructor.
Defined.

(** ** More on the redaction *)

(** Outside a match the scan copies the text up to the next [key=], so a
    pattern without the letter k starts the output exactly when it starts
    the input. *)
Lemma prefix_empty (s : string) : String.prefix EmptyString s = true.
Proof. destruct s; reflexivity. Qed.

Lemma prefix_re_sub_key (pat s : string) :
  lacks "k" pat = true ->
  String.prefix pat (re_sub_key false s) = String.prefix pat s.
Proof.
  revert pat. induction s as [|c s IH]; intros pat Hpat; [reflexivity|].
  destruct pat as [|a pat]; [now rewrite !prefix_empty|].
  cbn [lacks] in Hpat. apply andb_true_iff in Hpat as [Ha Hpat].
  cbn [re_sub_key andb].
  destruct (String.prefix "key=" (String c s)) eqn:E.
  - assert (c = "k"%char) as ->.
    { cbn [String.prefix] in E. destruct (ascii_dec "k" c); [congruence | discriminate E]. }
    change ("key=XXX" +:+ re_sub_key true s)
      with (String "k" ("ey=XXX" +:+ re_sub_key true s)).
    cbn [String.prefix].
    destruct (ascii_dec a "k") as [-> | _]; [discriminate Ha | reflexivity].
  - cbn [String.prefix]. destruct (ascii_dec a c); [now apply IH | reflexivity].
Qed.

(** Redacting twice is redacting once: the output of the substitution holds
    no [key=] parameter that a second pass would still change. *)
Theorem re_sub_key_idempotent (s : string) :
  re_sub_key false (re_sub_key false s) = re_sub_key false s /\
  re_sub_key true (re_sub_key true s) = re_sub_key true s.
Proof.
  induction s as [|c s [IHout IHin]]; [split; reflexivity|].
  assert (Hout : re_sub_key false (re_sub_key false (String c s))
                 = re_sub_key false (String c s)).
  { cbn [re_sub_key andb].
    destruct (String.prefix "key=" (String c s)) eqn:E.
    - change ("key=XXX" +:+ re_sub_key true s)
        with (String "k" ("ey=XXX" +:+ re_sub_key true s)).
      cbn [re_sub_key andb].
      change (String "k" ("ey=XXX" +:+ re_sub_key true s))
        with ("key=" +:+ ("XXX" +:+ re_sub_key true s)).
      rewrite prefix_append.
      change ("ey=" +:+ "XXX" +:+ re_sub_key true s)
        with ("ey=XXX" +:+ re_sub_key true s).
      rewrite re_sub_key_inside by reflexivity.
      now rewrite IHin.
    - cbn [re_sub_key andb].
      assert (String.prefix "key=" (String c (re_sub_key false s))
              = String.prefix "key=" (String c s)) as ->.
      { cbn [String.prefix].
        destruct (ascii_dec "k" c); [now apply prefix_re_sub_key | reflexivity]. }
      rewrite E. now rewrite IHout. }
  split; [exact Hout|].
  cbn [re_sub_key andb]. destruct (Ascii.eqb c "&") eqn:Ec; cbn [negb].
  - apply Ascii.eqb_eq in Ec. subst c.
    change (String.prefix "key=" (String "&" s)) with false. cbn iota.
    cbn [re_sub_key andb]. change (Ascii.eqb "&" "&") with true. cbn [negb].
    change (String.prefix "key=" (String "&" (re_sub_key false s))) with false.
    cbn iota. now rewrite IHout.
  - exact IHin.
Qed.

(** A text in which [key=] never starts is logged as it is. *)
Theorem re_sub_key_without_key (s : string) (Hs : has_key s = false) :
  re_sub_key false s = s.
Proof.
  induction s as [|c s IH]; [reflexivity|].
  cbn [has_key] in Hs. apply orb_false_iff in Hs as [E Hs].
  cbn [re_sub_key andb]. rewrite E. f_equal. now apply IH.
Qed.

Lemma re_sub_key_without_key_witness :
  re_sub_key false "http://api.weathercloud.net/v01/set?ver=4.10.2&wid=monkey"
  = "http://api.weathercloud.net/v01/set?ver=4.10.2&wid=monkey".
Proof.
  apply re_sub_key_without_key. reflexivity.
Defined.
